(** * Prophet MCP server: a shallow embedding of [app.py] and [mcp_helper.py]

    The server exposes one JSON-RPC endpoint ([/mcp]).  [app.py] parses the
    body, checks the bearer token, short-circuits notifications and wraps
    whatever [mcp_helper.handle_request] returns or raises into a JSON-RPC
    envelope.  [mcp_helper.py] routes the three methods and runs the
    forecast tool on top of pandas and Prophet.

    Python values are modelled by a JSON-like inductive type, Python
    exceptions by an explicit [result] type, and the external libraries the
    code calls ([json], pandas' parsers, Prophet, the process environment)
    by the fields of a record [World] over which every function of the
    server is parameterised.  Flask's [request] object is the input of the
    view: what [get_json] yields on it and its [Authorization] header. *)

From Stdlib Require Import String Ascii ZArith List Bool Lia.
From Stdlib Require Import DecimalString.
Import ListNotations.

Open Scope string_scope.
Open Scope Z_scope.

(* ================================================================== *)
(** * Python values and builtins *)
(* ================================================================== *)

Module Py.

(** A Python [float]: a binary64 value is a dyadic rational [m * 2^e], an
    infinity or NaN. *)
Inductive pyfloat : Type :=
| FFinite (m e : Z)
| FInf (negative : bool)
| FNaN.

(** Values that [json.loads] produces and [json.dumps] consumes.  A [dict]
    is an association list in insertion order; [dict_get] returns the
    first binding of a key. *)
#[warning="-register-all"]
Inductive json : Type :=
| JNull
| JBool (b : bool)
| JInt (z : Z)
| JFloat (f : pyfloat)
| JStr (s : string)
| JArr (items : list json)
| JObj (fields : list (string * json)).

(** An exception, by its class name and the text [str(e)] yields. *)
Record exn : Type := Exn { exn_class : string; exn_str : string }.

Inductive result (A : Type) : Type :=
| Ok (a : A)
| Raise (e : exn).
Arguments Ok {A} a.
Arguments Raise {A} e.

Definition bind {A B : Type} (r : result A) (k : A -> result B) : result B :=
  match r with
  | Ok a => k a
  | Raise e => Raise e
  end.

Definition ValueError (msg : string) : exn := Exn "ValueError" msg.
Definition TypeError (msg : string) : exn := Exn "TypeError" msg.
Definition OverflowError (msg : string) : exn := Exn "OverflowError" msg.
Definition IndexError (msg : string) : exn := Exn "IndexError" msg.

(** [type(x).__name__] *)
Definition type_name (x : json) : string :=
  match x with
  | JNull => "NoneType"
  | JBool _ => "bool"
  | JInt _ => "int"
  | JFloat _ => "float"
  | JStr _ => "str"
  | JArr _ => "list"
  | JObj _ => "dict"
  end.

Definition AttributeError (x : json) (attr : string) : exn :=
  Exn "AttributeError"
      ("'" ++ type_name x ++ "' object has no attribute '" ++ attr ++ "'").

Fixpoint dict_get (fields : list (string * json)) (k : string) : option json :=
  match fields with
  | [] => None
  | (k', v) :: rest => if String.eqb k' k then Some v else dict_get rest k
  end.

(** [x.get(k, default)]: only a [dict] has the attribute. *)
Definition get (x : json) (k : string) (default : json) : result json :=
  match x with
  | JObj fields =>
      Ok (match dict_get fields k with Some v => v | None => default end)
  | _ => Raise (AttributeError x "get")
  end.

(** [x is None] *)
Definition is_None (x : json) : bool :=
  match x with JNull => true | _ => false end.

(** [x == s] for a string literal [s]: false for every non-string. *)
Definition eq_str (x : json) (s : string) : bool :=
  match x with JStr s' => String.eqb s' s | _ => false end.

(** [s.split(' ')]: cut at every single space, keeping empty pieces. *)
Fixpoint split_space (s : string) : list string :=
  match s with
  | EmptyString => [EmptyString]
  | String c rest =>
      if Ascii.eqb c " "%char then EmptyString :: split_space rest
      else match split_space rest with
           | piece :: pieces => String c piece :: pieces
           | [] => [String c EmptyString]
           end
  end.

Definition startswith (s p : string) : bool := String.prefix p s.

(** Decimal text of an integer, as [str(n)] prints it. *)
Definition str_int (z : Z) : string := NilZero.string_of_int (Z.to_int z).

(** [int(x)] on a float: truncation towards zero. *)
Definition int_of_float (f : pyfloat) : result Z :=
  match f with
  | FFinite m e =>
      Ok (if 0 <=? e then m * 2 ^ e else Z.quot m (2 ^ (- e)))
  | FInf _ => Raise (OverflowError "cannot convert float infinity to integer")
  | FNaN => Raise (ValueError "cannot convert float NaN to integer")
  end.

End Py.
Import Py.

Declare Scope py_scope.
Notation "x <- r ;; k" := (bind r (fun x => k))
  (at level 61, r at next level, right associativity) : py_scope.
Open Scope py_scope.

(* ================================================================== *)
(** * pandas timestamps *)
(* ================================================================== *)

Module Pandas.

(** A (timezone-naive) [Timestamp] is a count of nanoseconds since
    1970-01-01T00:00:00; [NaT] is the missing value ([None] in a column
    below).  At nanosecond resolution pandas holds the count in a signed
    64-bit integer ([in_bounds]); dates beyond that range are held at a
    coarser resolution. *)
Definition Timestamp : Type := Z.

Definition ns_per_second : Z := 1000000000.
Definition ns_per_day : Z := 86400 * ns_per_second.

Definition Timestamp_min : Z := - 2 ^ 63 + 1.
Definition Timestamp_max : Z := 2 ^ 63 - 1.
Definition in_bounds (t : Timestamp) : Prop :=
  Timestamp_min <= t <= Timestamp_max.

(** Proleptic Gregorian date of a day number (days since 1970-01-01). *)
Definition civil_from_days (days : Z) : Z * Z * Z :=
  let z := days + 719468 in
  let era := z / 146097 in
  let doe := z - era * 146097 in
  let yoe := (doe - doe / 1460 + doe / 36524 - doe / 146096) / 365 in
  let doy := doe - (365 * yoe + yoe / 4 - yoe / 100) in
  let mp := (5 * doy + 2) / 153 in
  let d := doy - (153 * mp + 2) / 5 + 1 in
  let m := if mp <? 10 then mp + 3 else mp - 9 in
  let y := yoe + era * 400 + (if m <=? 2 then 1 else 0) in
  (y, m, d).

(** Two decimal digits, zero padded ([%m], [%d], [%H], [%M], [%S]). *)
Definition pad2 (n : Z) : string :=
  str_int (n / 10) ++ str_int (n mod 10).

(** [%Y-%m-%d] of a day number and [%H:%M:%S] of a second of the day. *)
Definition strftime_date (days : Z) : string :=
  let '(y, m, d) := civil_from_days days in
  str_int y ++ "-" ++ pad2 m ++ "-" ++ pad2 d.

Definition strftime_time (sod : Z) : string :=
  pad2 (sod / 3600) ++ ":" ++ pad2 (sod / 60 mod 60) ++ ":"
    ++ pad2 (sod mod 60).

(** [t.strftime("%Y-%m-%dT%H:%M:%S")] on one [Timestamp]: the year is
    printed as it is, without padding. *)
Definition strftime (t : Timestamp) : string :=
  strftime_date (t / ns_per_day) ++ "T"
    ++ strftime_time ((t mod ns_per_day) / ns_per_second).

(** Four decimal digits at least, zero padded. *)
Definition pad4 (n : Z) : string :=
  if (0 <=? n) && (n <? 10) then "000" ++ str_int n
  else if (0 <=? n) && (n <? 100) then "00" ++ str_int n
  else if (0 <=? n) && (n <? 1000) then "0" ++ str_int n
  else str_int n.

Definition dt_strftime_date (days : Z) : string :=
  let '(y, m, d) := civil_from_days days in
  pad4 y ++ "-" ++ pad2 m ++ "-" ++ pad2 d.

(** [col.dt.strftime("%Y-%m-%dT%H:%M:%S")] on one element of a column:
    the vectorised formatter pads the year to four digits. *)
Definition dt_strftime (t : Timestamp) : string :=
  dt_strftime_date (t / ns_per_day) ++ "T"
    ++ strftime_time ((t mod ns_per_day) / ns_per_second).

(** [Series.min()] and [Series.max()] of a datetime column skip [NaT];
    on a column with no timestamp at all they return [NaT]. *)
Fixpoint series_min (col : list (option Timestamp)) : option Timestamp :=
  match col with
  | [] => None
  | None :: rest => series_min rest
  | Some t :: rest =>
      match series_min rest with
      | Some u => Some (Z.min t u)
      | None => Some t
      end
  end.

Fixpoint series_max (col : list (option Timestamp)) : option Timestamp :=
  match col with
  | [] => None
  | None :: rest => series_max rest
  | Some t :: rest =>
      match series_max rest with
      | Some u => Some (Z.max t u)
      | None => Some t
      end
  end.

(** [x.strftime(...)] on the scalar a reduction returned: [NaT] refuses. *)
Definition scalar_strftime (x : option Timestamp) : result string :=
  match x with
  | Some t => Ok (strftime t)
  | None => Raise (ValueError "NaTType does not support strftime")
  end.

End Pandas.
Import Pandas.

(** A data frame with the two columns the tool builds, [ds] and [y], over
    an index of [df_rows] rows. *)
Record DataFrame (D : Type) : Type :=
  { df_rows : nat; df_ds : list D; df_y : list json }.
Arguments df_rows {D} d.
Arguments df_ds {D} d.
Arguments df_y {D} d.

(** [df.shape[0]] *)
Definition shape0 {D : Type} (df : DataFrame D) : Z := Z.of_nat (df_rows df).

(** [df["ds"] = col]: the column is replaced, the index stays. *)
Definition set_ds {D E : Type} (df : DataFrame D) (col : list E)
  : DataFrame E :=
  {| df_rows := df_rows df; df_ds := col; df_y := df_y df |}.

(** A row of the frame [Prophet.predict] returns, cut down to the four
    columns the tool keeps. *)
Record ForecastRow : Type :=
  { row_ds : Timestamp;
    row_yhat : pyfloat;
    row_yhat_lower : pyfloat;
    row_yhat_upper : pyfloat }.

(* ================================================================== *)
(** * The external collaborators *)
(* ================================================================== *)

(** Everything the two source files call and do not define. *)
Record World : Type :=
  { (** [os.getenv('MCP_TOKEN')] *)
    getenv_MCP_TOKEN : option string;
    (** [json.loads] and [json.dumps] *)
    json_loads : string -> result json;
    json_dumps : json -> string;
    (** [int(s)] for a string [s] *)
    int_of_str : string -> result Z;
    (** [str(x)] for a float, a list or a dict *)
    str_other : json -> string;
    (** [pd.DataFrame({'ds': ds, 'y': y})] when [ds] and [y] are not both
        lists *)
    DataFrame_other : json -> json -> result (DataFrame json);
    (** [pd.to_datetime] applied to a column *)
    to_datetime : list json -> result (list (option Timestamp));
    (** [Prophet().fit(df)], [make_future_dataframe(periods=f)] and
        [predict(future)] in sequence *)
    prophet_predict :
      DataFrame (option Timestamp) -> Z -> result (list ForecastRow) }.

(* ================================================================== *)
(** * mcp_helper.py *)
(* ================================================================== *)

Section Server.

Variable W : World.

(** [str(x)], as f-strings interpolate a value. *)
Definition str (x : json) : string :=
  match x with
  | JStr s => s
  | JNull => "None"
  | JBool true => "True"
  | JBool false => "False"
  | JInt z => str_int z
  | _ => str_other W x
  end.

(** [int(x)] *)
Definition py_int (x : json) : result Z :=
  match x with
  | JInt z => Ok z
  | JBool b => Ok (if b then 1 else 0)
  | JFloat f => int_of_float f
  | JStr s => int_of_str W s
  | _ =>
      Raise (TypeError
        ("int() argument must be a string, a bytes-like object or a real number, not '"
           ++ type_name x ++ "'"))
  end.

(** [pd.DataFrame({'ds': ds, 'y': y})]: two lists must have one length. *)
Definition pd_DataFrame (ds y : json) : result (DataFrame json) :=
  match ds, y with
  | JArr dsl, JArr yl =>
      if Nat.eqb (length dsl) (length yl)
      then Ok {| df_rows := length dsl; df_ds := dsl; df_y := yl |}
      else Raise (ValueError "All arrays must be of the same length")
  | _, _ => DataFrame_other W ds y
  end.

Definition handle_initialize : json :=
  JObj [ ("protocolVersion", JStr "2024-11-05");
         ("serverInfo",
           JObj [("name", JStr "prophet_mcp"); ("version", JStr "0.1.0")]);
         ("capabilities", JObj [("tools", JObj [])]) ].

Definition forecast_tool_descriptor : json :=
  JObj [ ("name", JStr "forecast_time_series");
         ("description",
           JStr "Runs a simple Prophet forecast on ds/y and returns ds + yhat/yhat_lower/yhat_upper.");
         ("annotations", JObj [("read_only", JBool false)]);
         ("inputSchema",
           JObj [ ("type", JStr "object");
                  ("properties",
                    JObj [ ("ds",
                             JObj [ ("type", JStr "array");
                                    ("items", JObj [("type", JStr "string")]);
                                    ("description",
                                      JStr "List of dates in ISO format (e.g., YYYY-MM-DD).") ]);
                           ("y",
                             JObj [ ("type", JStr "array");
                                    ("items", JObj [("type", JStr "number")]);
                                    ("description",
                                      JStr "List of numeric values aligned with ds.") ]);
                           ("periods",
                             JObj [ ("type", JStr "integer");
                                    ("description",
                                      JStr "Number of future periods to forecast.");
                                    ("default", JInt 10) ]) ]);
                  ("required", JArr [JStr "ds"; JStr "y"]);
                  ("additionalProperties", JBool false) ]) ].

Definition handle_tools_list : json :=
  JObj [("tools", JArr [forecast_tool_descriptor])].

(** One record of [out.to_dict(orient="records")], after the [ds] column
    was formatted. *)
Definition forecast_record (r : ForecastRow) : json :=
  JObj [ ("ds", JStr (dt_strftime (row_ds r)));
         ("yhat", JFloat (row_yhat r));
         ("yhat_lower", JFloat (row_yhat_lower r));
         ("yhat_upper", JFloat (row_yhat_upper r)) ].

Definition forecast_time_series (arguments : json) : result json :=
  ds <- get arguments "ds" JNull ;;
  y <- get arguments "y" JNull ;;
  periods <- get arguments "periods" (JInt 10) ;;
  f <- py_int periods ;;
  df0 <- pd_DataFrame ds y ;;
  ds_col <- to_datetime W (df_ds df0) ;;
  let df := set_ds df0 ds_col in
  match prophet_predict W df f with
  | Raise e => Ok (JObj [("error", JStr (exn_str e))])
  | Ok forecast =>
      let out := map forecast_record forecast in
      start <- scalar_strftime (series_min (df_ds df)) ;;
      end_ <- scalar_strftime (series_max (df_ds df)) ;;
      Ok (JObj [ ("meta",
                   JObj [ ("f", JInt f);
                          ("n_history", JInt (shape0 df));
                          ("start", JStr start);
                          ("end", JStr end_) ]);
                 ("forecast", JArr out) ])
  end.

(** A tool result: [{"isError": True, "content": [text item]}]. *)
Definition text_content (text : string) : json :=
  JArr [JObj [("type", JStr "text"); ("text", JStr text)]].

Definition tool_error (text : string) : json :=
  JObj [("isError", JBool true); ("content", text_content text)].

(** [if isinstance(arguments, str): try: arguments = json.loads(arguments)
    except Exception: return ...]: the arguments after the decoding step,
    or [None] when the step returns early. *)
Definition decode_arguments (arguments : json) : option json :=
  match arguments with
  | JStr s =>
      match json_loads W s with
      | Ok a => Some a
      | Raise _ => None
      end
  | _ => Some arguments
  end.

Definition handle_tool_call (params : json) : result json :=
  tool_name <- get params "name" JNull ;;
  arguments <- get params "arguments" (JObj []) ;;
  match decode_arguments arguments with
  | None =>
      Ok (tool_error "Invalid arguments: expected object or JSON string.")
  | Some arguments =>
      if eq_str tool_name "forecast_time_series" then
        data <- forecast_time_series arguments ;;
        Ok (JObj [("content", text_content (json_dumps W data))])
      else
        Ok (tool_error ("Tool not found: " ++ str tool_name))
  end.

Definition handle_request (method params : json) : result json :=
  if eq_str method "initialize" then Ok handle_initialize
  else if eq_str method "tools/list" then Ok handle_tools_list
  else if eq_str method "tools/call" then handle_tool_call params
  else Raise (ValueError ("Method not found: " ++ str method)).

(* ================================================================== *)
(** * app.py *)
(* ================================================================== *)

(** Flask's [request], as far as the view reads it:
    [request.get_json(force=True)], which returns the decoded body or
    raises, and [request.headers.get('Authorization')]. *)
Record Request : Type :=
  { request_get_json : result json;
    request_authorization : option string }.

(** What the view function returns: a body ([None] for the empty body,
    [Some j] for [jsonify(j)]) and an HTTP status. *)
Record Response : Type := { body : option json; status : Z }.

Definition error_envelope (code : Z) (message : string) (id : json) : json :=
  JObj [ ("jsonrpc", JStr "2.0");
         ("error", JObj [("code", JInt code); ("message", JStr message)]);
         ("id", id) ].

Definition result_envelope (result : json) (id : json) : json :=
  JObj [ ("jsonrpc", JStr "2.0"); ("result", result); ("id", id) ].

Definition respond (j : json) (st : Z) : Response :=
  {| body := Some j; status := st |}.

Definition no_content : Response := {| body := None; status := 204 |}.

(** [if not auth_header or not auth_header.startswith('Bearer ')] *)
Definition header_rejected (auth_header : option string) : bool :=
  match auth_header with
  | None => true
  | Some h => String.eqb h "" || negb (startswith h "Bearer ")
  end.

(** [auth_header.split(' ')[1]] *)
Definition extract_token (h : string) : result string :=
  match nth_error (split_space h) 1 with
  | Some token => Ok token
  | None => Raise (IndexError "list index out of range")
  end.

(** [token != os.getenv('MCP_TOKEN')] *)
Definition token_mismatch (token : string) : bool :=
  match getenv_MCP_TOKEN W with
  | Some secret => negb (String.eqb token secret)
  | None => true
  end.

(** [method == "notifications/initialized" or (isinstance(method, str)
    and method.startswith("notifications/"))] *)
Definition recognized_notification (method : json) : bool :=
  eq_str method "notifications/initialized"
  || match method with
     | JStr m => startswith m "notifications/"
     | _ => false
     end.

(** The part of the view after the bearer check: notifications, dispatch
    and the [try]/[except] around it.  The two notification branches differ
    in the line they log only. *)
Definition dispatch (method params request_id : json) : Response :=
  if is_None request_id then
    if recognized_notification method then no_content else no_content
  else
    match handle_request method params with
    | Ok result => respond (result_envelope result request_id) 200
    | Raise e =>
        if eq_str method "tools/call" then
          respond
            (result_envelope
               (tool_error ("Internal tool error: " ++ exn_str e)) request_id)
            200
        else
          respond
            (error_envelope (-32603) ("Internal error: " ++ exn_str e)
               request_id)
            200
    end.

(** The view bound to [POST /mcp].  A [Raise] is an exception that leaves
    the view (Flask answers it with its own error page). *)
Definition mcp_endpoint (request : Request) : result Response :=
  let authorization := request_authorization request in
  match request_get_json request with
  | Raise e =>
      Ok (respond
            (error_envelope (-32700) ("Parse error: " ++ exn_str e) JNull) 200)
  | Ok data =>
      method <- get data "method" JNull ;;
      params <- get data "params" (JObj []) ;;
      request_id <- get data "id" JNull ;;
      if header_rejected authorization then
        Ok (respond
              (error_envelope (-32000)
                 "Unauthorized: Missing or invalid Authorization header"
                 request_id) 401)
      else
        token <- extract_token (match authorization with
                                | Some h => h
                                | None => ""
                                end) ;;
        if token_mismatch token then
          Ok (respond
                (error_envelope (-32000) "Unauthorized: Invalid MCP Auth token"
                   request_id) 401)
        else Ok (dispatch method params request_id)
  end.

End Server.

(* ================================================================== *)
(** * Vocabulary of the statements *)
(* ================================================================== *)

(** The token the view extracts from a header it does not reject. *)
Definition bearer_token (authorization : option string) : option string :=
  match authorization with
  | Some h =>
      if startswith h "Bearer " then nth_error (split_space h) 1 else None
  | None => None
  end.

(** The header carries the configured secret as its token. *)
Definition authorized (W : World) (authorization : option string) : bool :=
  match bearer_token authorization, getenv_MCP_TOKEN W with
  | Some token, Some secret => String.eqb token secret
  | _, _ => false
  end.

(** The fields of a request envelope, with the defaults the view gives
    them. *)
Definition field_method (fields : list (string * json)) : json :=
  match dict_get fields "method" with Some v => v | None => JNull end.

Definition field_params (fields : list (string * json)) : json :=
  match dict_get fields "params" with Some v => v | None => JObj [] end.

Definition field_id (fields : list (string * json)) : json :=
  match dict_get fields "id" with Some v => v | None => JNull end.

(** The fields of the params of a tool call and of the arguments of the
    forecast tool, with the defaults the handlers give them. *)
Definition param_name (pfields : list (string * json)) : json :=
  match dict_get pfields "name" with Some v => v | None => JNull end.

Definition param_arguments (pfields : list (string * json)) : json :=
  match dict_get pfields "arguments" with Some v => v | None => JObj [] end.

Definition arg_periods (afields : list (string * json)) : json :=
  match dict_get afields "periods" with Some v => v | None => JInt 10 end.

Definition has_key (fields : list (string * json)) (k : string) : bool :=
  match dict_get fields k with Some _ => true | None => false end.

(** Follow a path of keys through nested objects. *)
Fixpoint at_path (j : json) (path : list string) : option json :=
  match path with
  | [] => Some j
  | k :: rest =>
      match j with
      | JObj fields =>
          match dict_get fields k with
          | Some v => at_path v rest
          | None => None
          end
      | _ => None
      end
  end.

Fixpoint has_space (s : string) : bool :=
  match s with
  | EmptyString => false
  | String c rest => Ascii.eqb c " "%char || has_space rest
  end.

(** The shape [dddd-dd-ddTdd:dd:dd]. *)
Definition is_digit (c : ascii) : bool :=
  (48 <=? nat_of_ascii c)%nat && (nat_of_ascii c <=? 57)%nat.

Fixpoint matches_shape (shape s : string) : bool :=
  match shape, s with
  | EmptyString, EmptyString => true
  | String p shape', String c s' =>
      (if Ascii.eqb p "d"%char then is_digit c else Ascii.eqb p c)
      && matches_shape shape' s'
  | _, _ => false
  end.

Definition iso_shape : string := "dddd-dd-ddTdd:dd:dd".

(** The calendar year a timestamp falls in. *)
Definition year_of (t : Timestamp) : Z :=
  fst (fst (civil_from_days (t / ns_per_day))).

(** [f] holds on the [n] integers from [lo] on. *)
Fixpoint all_from (n : nat) (lo : Z) (f : Z -> bool) : bool :=
  match n with
  | O => true
  | S k => f lo && all_from k (lo + 1) f
  end.

(* ================================================================== *)
(** * A concrete world *)
(* ================================================================== *)

(** Small executable stand-ins for the collaborators, on which the server
    can be run: a parser of [YYYY-MM-DD] dates, a forecaster that repeats
    the history and appends daily steps, a serializer.  The statements
    below quantify over every [World]; this one instantiates them. *)
Module Demo.

(** Day number of a civil date. *)
Definition days_from_civil (y m d : Z) : Z :=
  let y := if m <=? 2 then y - 1 else y in
  let era := y / 400 in
  let yoe := y - era * 400 in
  let mp := (m + 9) mod 12 in
  let doy := (153 * mp + 2) / 5 + d - 1 in
  let doe := yoe * 365 + yoe / 4 - yoe / 100 + doy in
  era * 146097 + doe - 719468.

Definition digit (c : ascii) : option Z :=
  if is_digit c then Some (Z.of_nat (nat_of_ascii c) - 48) else None.

Fixpoint digits (acc : Z) (s : string) : option Z :=
  match s with
  | EmptyString => Some acc
  | String c rest =>
      match digit c with
      | Some v => digits (10 * acc + v) rest
      | None => None
      end
  end.

(** A date written [YYYY-MM-DD], at midnight. *)
Definition parse_date (s : string) : option Timestamp :=
  if matches_shape "dddd-dd-dd" s then
    match digits 0 (substring 0 4 s), digits 0 (substring 5 2 s),
          digits 0 (substring 8 2 s) with
    | Some y, Some m, Some d =>
        let days := days_from_civil y m d in
        match civil_from_days days with
        | (y', m', d') =>
            if (y' =? y) && (m' =? m) && (d' =? d)
            then Some (days * ns_per_day) else None
        end
    | _, _, _ => None
    end
  else None.

Fixpoint parse_dates (col : list json) : result (list (option Timestamp)) :=
  match col with
  | [] => Ok []
  | JStr s :: rest =>
      match parse_date s with
      | Some t => ts <- parse_dates rest ;; Ok (Some t :: ts)
      | None =>
          Raise (ValueError
                   ("Unknown datetime string format, unable to parse: " ++ s))
      end
  | x :: _ =>
      Raise (TypeError ("<class '" ++ type_name x
                          ++ "'> is not convertible to datetime"))
  end.

Fixpoint future (last : Timestamp) (n : nat) : list Timestamp :=
  match n with
  | O => []
  | S k => (last + ns_per_day) :: future (last + ns_per_day) k
  end.

Fixpoint timestamps (col : list (option Timestamp)) : list Timestamp :=
  match col with
  | [] => []
  | Some t :: rest => t :: timestamps rest
  | None :: rest => timestamps rest
  end.

Definition flat_row (t : Timestamp) : ForecastRow :=
  {| row_ds := t;
     row_yhat := FFinite 0 0;
     row_yhat_lower := FFinite (-1) 0;
     row_yhat_upper := FFinite 1 0 |}.

(** The history followed by [f] daily steps after its last date; fewer than
    two dated rows are refused, as Prophet refuses them. *)
Definition forecaster (df : DataFrame (option Timestamp)) (f : Z)
  : result (list ForecastRow) :=
  match series_max (df_ds df) with
  | Some last =>
      if (length (timestamps (df_ds df)) <? 2)%nat
      then Raise (ValueError "Dataframe has less than 2 non-NaN rows")
      else Ok (map flat_row
                 (timestamps (df_ds df) ++ future last (Z.to_nat f)))
  | None => Raise (ValueError "Dataframe has less than 2 non-NaN rows")
  end.

Definition quote : string := String "034"%char EmptyString.

Fixpoint zeros (n : nat) : string :=
  match n with
  | O => ""
  | S k => String "0"%char (zeros k)
  end.

(** A float in positional notation: [m * 2^e] written out exactly, which
    is the text [repr] prints whenever that text is the shortest one. *)
Definition dumps_float (f : pyfloat) : string :=
  match f with
  | FFinite m e =>
      if 0 <=? e then str_int (m * 2 ^ e) ++ ".0"
      else
        let k := - e in
        let a := Z.abs m in
        let frac := str_int ((a mod 2 ^ k) * 5 ^ k) in
        (if m <? 0 then "-" else "") ++ str_int (a / 2 ^ k) ++ "."
          ++ zeros (Z.to_nat k - String.length frac) ++ frac
  | FInf false => "Infinity"
  | FInf true => "-Infinity"
  | FNaN => "NaN"
  end.

(** [json.dumps] with its default separators, for values whose strings
    need no escape. *)
Fixpoint dumps (j : json) : string :=
  match j with
  | JNull => "null"
  | JBool true => "true"
  | JBool false => "false"
  | JInt z => str_int z
  | JFloat f => dumps_float f
  | JStr s => quote ++ s ++ quote
  | JArr items =>
      "[" ++ (fix elems (l : list json) : string :=
                match l with
                | [] => ""
                | x :: rest =>
                    match rest with
                    | [] => dumps x
                    | _ :: _ => dumps x ++ ", " ++ elems rest
                    end
                end) items ++ "]"
  | JObj fields =>
      "{" ++ (fix members (l : list (string * json)) : string :=
                match l with
                | [] => ""
                | (k, v) :: rest =>
                    match rest with
                    | [] => quote ++ k ++ quote ++ ": " ++ dumps v
                    | _ :: _ =>
                        quote ++ k ++ quote ++ ": " ++ dumps v ++ ", "
                          ++ members rest
                    end
                end) fields ++ "}"
  end.

(** [json.loads] on the two texts the examples pass: the empty object and
    an unfinished one. *)
Definition loads (s : string) : result json :=
  if String.eqb s "{}" then Ok (JObj [])
  else Raise (Exn "JSONDecodeError" ("Cannot decode: " ++ s)).

Definition parse_int (s : string) : result Z :=
  match s with
  | EmptyString =>
      Raise (ValueError "invalid literal for int() with base 10: ''")
  | _ =>
      match digits 0 s with
      | Some z => Ok z
      | None =>
          Raise (ValueError
                   ("invalid literal for int() with base 10: '" ++ s ++ "'"))
      end
  end.

Definition frame_other (ds y : json) : result (DataFrame json) :=
  match ds, y with
  | JArr dsl, _ =>
      Ok {| df_rows := length dsl; df_ds := dsl; df_y := map (fun _ => y) dsl |}
  | _, JArr yl =>
      Ok {| df_rows := length yl; df_ds := map (fun _ => ds) yl; df_y := yl |}
  | _, _ =>
      Raise (ValueError "If using all scalar values, you must pass an index")
  end.

(** The secret is [s3cret]; the JSON text of a float, list or dict stands
    in for its [str]. *)
Definition world : World :=
  {| getenv_MCP_TOKEN := Some "s3cret";
     json_loads := loads;
     json_dumps := dumps;
     int_of_str := parse_int;
     str_other := dumps;
     DataFrame_other := frame_other;
     to_datetime := parse_dates;
     prophet_predict := forecaster |}.

(** The same world with another value of [MCP_TOKEN]. *)
Definition world_with_token (token : option string) : World :=
  {| getenv_MCP_TOKEN := token;
     json_loads := loads;
     json_dumps := dumps;
     int_of_str := parse_int;
     str_other := dumps;
     DataFrame_other := frame_other;
     to_datetime := parse_dates;
     prophet_predict := forecaster |}.

End Demo.

(** Requests on which the statements below are run. *)
Module Examples.

Definition bearer : option string := Some "Bearer s3cret".

Definition envelope (id : list (string * json)) (method : string)
  (params : json) : json :=
  JObj ([("jsonrpc", JStr "2.0")] ++ id
          ++ [("method", JStr method); ("params", params)]).

Definition request_of (data : json) (authorization : option string)
  : Request :=
  {| request_get_json := Ok data; request_authorization := authorization |}.

(** The forecast call of the specification's example. *)
Definition forecast_arguments : list (string * json) :=
  [ ("ds", JArr [JStr "2021-01-01"; JStr "2021-01-02"; JStr "2021-01-03"]);
    ("y", JArr [JInt 1; JInt 2; JInt 3]);
    ("periods", JInt 2) ].

Definition forecast_params : list (string * json) :=
  [ ("name", JStr "forecast_time_series");
    ("arguments", JObj forecast_arguments) ].

Definition forecast_call : Request :=
  request_of (envelope [("id", JInt 1)] "tools/call" (JObj forecast_params))
    bearer.

(** The same call with a date pandas cannot read. *)
Definition bad_date_arguments : list (string * json) :=
  [ ("ds", JArr [JStr "2021-01-01"; JStr "not-a-date"]);
    ("y", JArr [JInt 1; JInt 2]) ].

Definition bad_date_call : Request :=
  request_of
    (envelope [("id", JInt 2)] "tools/call"
       (JObj [ ("name", JStr "forecast_time_series");
               ("arguments", JObj bad_date_arguments) ]))
    bearer.

(** A call of a tool that does not exist, and the same with an argument
    string that is not JSON. *)
Definition nope_params : list (string * json) :=
  [("name", JStr "nope"); ("arguments", JObj [])].

Definition nope_call : Request :=
  request_of (envelope [("id", JInt 3)] "tools/call" (JObj nope_params))
    bearer.

Definition nope_bad_arguments : json :=
  JObj [("name", JStr "nope"); ("arguments", JStr "{")].

(** A notification, with and without the bearer header. *)
Definition initialized_fields : list (string * json) :=
  [("jsonrpc", JStr "2.0"); ("method", JStr "notifications/initialized")].

Definition notification : Request :=
  request_of (JObj initialized_fields) bearer.

Definition anonymous_notification : Request :=
  request_of (JObj initialized_fields) None.

(** A request for a method the router does not know. *)
Definition ping_fields : list (string * json) :=
  [("jsonrpc", JStr "2.0"); ("id", JStr "a1"); ("method", JStr "ping")].

Definition ping : Request := request_of (JObj ping_fields) bearer.

Definition ping_wrong_token : Request :=
  request_of (JObj ping_fields) (Some "Bearer guess").

Definition ping_basic_auth : Request :=
  request_of (JObj ping_fields) (Some "Basic s3cret").

Definition ping_trailing : Request :=
  request_of (JObj ping_fields) (Some "Bearer s3cret and more").

Definition broken_body : Request :=
  {| request_get_json :=
       Raise (Exn "BadRequest"
                "400 Bad Request: Failed to decode JSON object");
     request_authorization := None |}.

(** A body that is valid JSON and no object. *)
Definition list_body : Request := request_of (JArr [JInt 1; JInt 2]) bearer.

(** [initialize] and [tools/list] with params that are no object. *)
Definition initialize_fields : list (string * json) :=
  [ ("jsonrpc", JStr "2.0"); ("id", JInt 7); ("method", JStr "initialize");
    ("params", JArr [JInt 1]) ].

Definition initialize_call : Request :=
  request_of (JObj initialize_fields) bearer.

Definition list_fields : list (string * json) :=
  [ ("jsonrpc", JStr "2.0"); ("id", JInt 8); ("method", JStr "tools/list");
    ("params", JNull) ].

Definition list_call : Request := request_of (JObj list_fields) bearer.

(** Tool calls: params that are [null], the forecast tool with an argument
    string that is not JSON, with arguments that are a list, and with a
    horizon [int] refuses. *)
Definition call_fields (id : Z) (params : json) : list (string * json) :=
  [ ("jsonrpc", JStr "2.0"); ("id", JInt id); ("method", JStr "tools/call");
    ("params", params) ].

Definition null_params_call : Request :=
  request_of (JObj (call_fields 9 JNull)) bearer.

Definition forecast_bad_string : list (string * json) :=
  [("name", JStr "forecast_time_series"); ("arguments", JStr "{")].

Definition forecast_bad_string_call : Request :=
  request_of (JObj (call_fields 10 (JObj forecast_bad_string))) bearer.

Definition forecast_list_arguments : list (string * json) :=
  [("name", JStr "forecast_time_series"); ("arguments", JArr [JInt 1])].

Definition forecast_list_arguments_call : Request :=
  request_of (JObj (call_fields 11 (JObj forecast_list_arguments))) bearer.

Definition null_periods_arguments : list (string * json) :=
  [ ("ds", JArr [JStr "not-a-date"]); ("y", JArr []); ("periods", JNull) ].

Definition null_periods_params : list (string * json) :=
  [ ("name", JStr "forecast_time_series");
    ("arguments", JObj null_periods_arguments) ].

Definition null_periods_call : Request :=
  request_of (JObj (call_fields 12 (JObj null_periods_params))) bearer.

(** A history of one date, which the forecaster refuses, and a history
    whose two columns differ in length. *)
Definition short_arguments : list (string * json) :=
  [("ds", JArr [JStr "2021-01-01"]); ("y", JArr [JInt 1])].

Definition short_params : list (string * json) :=
  [ ("name", JStr "forecast_time_series");
    ("arguments", JObj short_arguments) ].

Definition short_call : Request :=
  request_of (JObj (call_fields 13 (JObj short_params))) bearer.

Definition ragged_arguments : list (string * json) :=
  [ ("ds", JArr [JStr "2021-01-01"; JStr "2021-01-02"]);
    ("y", JArr [JInt 1]) ].

Definition ragged_params : list (string * json) :=
  [ ("name", JStr "forecast_time_series");
    ("arguments", JObj ragged_arguments) ].

Definition ragged_call : Request :=
  request_of (JObj (call_fields 14 (JObj ragged_params))) bearer.

(** A tool call whose arguments are the text of the empty object. *)
Definition nope_string_params : list (string * json) :=
  [("name", JStr "nope"); ("arguments", JStr "{}")].

(** The forecast call on a history of the year 1. *)
Definition ancient_arguments : list (string * json) :=
  [ ("ds", JArr [JStr "0001-01-01"; JStr "0001-01-02"; JStr "0001-01-03"]);
    ("y", JArr [JInt 1; JInt 2; JInt 3]);
    ("periods", JInt 2) ].

Definition ancient_call : Request :=
  request_of
    (JObj (call_fields 15
             (JObj [ ("name", JStr "forecast_time_series");
                     ("arguments", JObj ancient_arguments) ])))
    bearer.

(** A body that is no object, sent without a header. *)
Definition anonymous_list_body : Request :=
  request_of (JArr [JInt 1; JInt 2]) None.

(** A header that spells out a secret of two words, and more. *)
Definition ping_two_words : Request :=
  request_of (JObj ping_fields) (Some "Bearer two words and more").

(** Headers around the empty token. *)
Definition ping_two_spaces : Request :=
  request_of (JObj ping_fields) (Some "Bearer  s3cret").

Definition ping_bare_bearer : Request :=
  request_of (JObj ping_fields) (Some "Bearer ").

End Examples.

(* ================================================================== *)
(** * Strings: [split] and [startswith] *)
(* ================================================================== *)

Lemma split_space_nonempty (s : string) : split_space s <> [].
Proof.
  destruct s as [|c rest]; simpl; [discriminate|].
  destruct (Ascii.eqb c " "); [discriminate|].
  destruct (split_space rest); discriminate.
Qed.

Lemma split_space_segment (tok rest : string) :
  has_space tok = false ->
  split_space (tok ++ String " "%char rest) = tok :: split_space rest.
Proof.
  induction tok as [|c tok IH]; simpl; intros Hsp; [reflexivity|].
  apply orb_false_iff in Hsp as [Hc Htok].
  rewrite Hc, (IH Htok). reflexivity.
Qed.

(** No piece of a split holds a space: a secret with a space in it is
    matched by no header. *)
Lemma split_space_pieces (s : string) :
  Forall (fun piece => has_space piece = false) (split_space s).
Proof.
  induction s as [|c rest IH]; simpl.
  - constructor; [reflexivity|constructor].
  - destruct (Ascii.eqb c " ") eqn:Hc.
    + constructor; [reflexivity|exact IH].
    + destruct (split_space rest) as [|piece pieces].
      * constructor; [simpl; now rewrite Hc|constructor].
      * inversion IH as [|? ? Hp Hps]; subst.
        constructor; [simpl; now rewrite Hc, Hp|exact Hps].
Qed.

Lemma extract_token_no_space (h token : string) :
  extract_token h = Ok token -> has_space token = false.
Proof.
  unfold extract_token.
  destruct (nth_error (split_space h) 1) as [t|] eqn:E; [|discriminate].
  intros H. injection H as <-.
  apply nth_error_In in E.
  pose proof (split_space_pieces h) as Hall.
  rewrite Forall_forall in Hall. exact (Hall t E).
Qed.

Lemma startswith_app (p s : string) : startswith (p ++ s) p = true.
Proof.
  unfold startswith. induction p as [|c p IH]; simpl.
  - destruct s; reflexivity.
  - rewrite IH. destruct (ascii_dec c c); [reflexivity|congruence].
Qed.

Lemma startswith_inv (s p : string) :
  startswith s p = true -> exists rest, s = p ++ rest.
Proof.
  unfold startswith. revert s.
  induction p as [|c p IH]; intros s H.
  - exists s. reflexivity.
  - destruct s as [|c' s]; simpl in H; [discriminate|].
    destruct (ascii_dec c c'); [|discriminate]. subst c'.
    destruct (IH s H) as [rest ->]. exists rest. reflexivity.
Qed.

(** A header that starts with [Bearer ] always has a second segment: the
    subscript [[1]] cannot raise. *)
Lemma bearer_has_token (h : string) :
  startswith h "Bearer " = true ->
  exists token, nth_error (split_space h) 1 = Some token.
Proof.
  intros H. apply startswith_inv in H as [rest ->].
  change ("Bearer " ++ rest) with ("Bearer" ++ String " "%char rest).
  rewrite split_space_segment by reflexivity.
  destruct (split_space rest) as [|token pieces] eqn:E.
  - exfalso. exact (split_space_nonempty rest E).
  - exists token. reflexivity.
Qed.

(* ================================================================== *)
(** * The bearer check *)
(* ================================================================== *)

Section Transport.

Variable W : World.

Lemma header_accepted (h : string) :
  startswith h "Bearer " = true -> header_rejected (Some h) = false.
Proof.
  intros H. unfold header_rejected. rewrite H.
  destruct h; [discriminate H|reflexivity].
Qed.

Lemma authorized_inv (authorization : option string) :
  authorized W authorization = true ->
  exists h token,
    authorization = Some h /\ startswith h "Bearer " = true
    /\ nth_error (split_space h) 1 = Some token
    /\ getenv_MCP_TOKEN W = Some token.
Proof.
  unfold authorized, bearer_token.
  destruct authorization as [h|]; [|discriminate].
  destruct (startswith h "Bearer ") eqn:Hp; [|discriminate].
  destruct (nth_error (split_space h) 1) as [token|] eqn:Ht; [|discriminate].
  destruct (getenv_MCP_TOKEN W) as [secret|] eqn:Hs; [|discriminate].
  intros Heq. apply String.eqb_eq in Heq. subst secret.
  exists h, token. auto.
Qed.

(** Past the bearer check, the view is [dispatch] on the three fields of
    the envelope. *)
Lemma endpoint_authorized (request : Request) (fields : list (string * json)) :
  request_get_json request = Ok (JObj fields) ->
  authorized W (request_authorization request) = true ->
  mcp_endpoint W request
  = Ok (dispatch W (field_method fields) (field_params fields)
          (field_id fields)).
Proof.
  intros Hj Ha.
  destruct (authorized_inv _ Ha) as (h & token & Hh & Hp & Ht & Hs).
  unfold mcp_endpoint. rewrite Hj, Hh. cbn [get bind].
  rewrite (header_accepted h Hp).
  unfold extract_token. rewrite Ht. cbn [bind].
  unfold token_mismatch. rewrite Hs, String.eqb_refl. reflexivity.
Qed.

Lemma endpoint_header_rejected (request : Request)
  (fields : list (string * json)) :
  request_get_json request = Ok (JObj fields) ->
  header_rejected (request_authorization request) = true ->
  mcp_endpoint W request
  = Ok (respond
          (error_envelope (-32000)
             "Unauthorized: Missing or invalid Authorization header"
             (field_id fields)) 401).
Proof.
  intros Hj Hr. unfold mcp_endpoint. rewrite Hj. cbn [get bind]. rewrite Hr.
  reflexivity.
Qed.

Lemma endpoint_token_mismatch (request : Request)
  (fields : list (string * json)) (h token : string) :
  request_get_json request = Ok (JObj fields) ->
  request_authorization request = Some h ->
  startswith h "Bearer " = true ->
  nth_error (split_space h) 1 = Some token ->
  getenv_MCP_TOKEN W <> Some token ->
  mcp_endpoint W request
  = Ok (respond
          (error_envelope (-32000) "Unauthorized: Invalid MCP Auth token"
             (field_id fields)) 401).
Proof.
  intros Hj Hh Hp Ht Hs. unfold mcp_endpoint. rewrite Hj, Hh. cbn [get bind].
  rewrite (header_accepted h Hp).
  unfold extract_token. rewrite Ht. cbn [bind].
  unfold token_mismatch.
  destruct (getenv_MCP_TOKEN W) as [secret|]; [|reflexivity].
  destruct (String.eqb token secret) eqn:E; [|reflexivity].
  apply String.eqb_eq in E. subst secret. congruence.
Qed.

End Transport.

(* ================================================================== *)
(** * Envelopes *)
(* ================================================================== *)

Lemma eq_str_neq (x : json) (s : string) : x <> JStr s -> eq_str x s = false.
Proof.
  destruct x as [| | | |s'| |]; simpl; try reflexivity.
  intros H. destruct (String.eqb s' s) eqn:E; [|reflexivity].
  apply String.eqb_eq in E. subst s'. congruence.
Qed.

(** Whatever the router does, a request with an id gets one envelope with
    that id and one of [result] and [error]. *)
Lemma dispatch_envelope (W : World) (method params id : json) :
  is_None id = false ->
  exists envelope,
    dispatch W method params id = respond (JObj envelope) 200
    /\ dict_get envelope "id" = Some id
    /\ xorb (has_key envelope "result") (has_key envelope "error") = true.
Proof.
  intros Hid. unfold dispatch. rewrite Hid.
  destruct (handle_request W method params) as [result|e].
  - eexists. split; [reflexivity|]. split; reflexivity.
  - destruct (eq_str method "tools/call");
      (eexists; split; [reflexivity|]; split; reflexivity).
Qed.

(** C2: a request that carries a non-null id is answered by exactly one
    JSON-RPC envelope; the envelope carries the id of the request and has
    exactly one of the fields [result] and [error]. *)
Theorem C2_one_envelope_same_id (W : World) (request : Request)
  (fields : list (string * json)) (id : json) :
  request_get_json request = Ok (JObj fields) ->
  dict_get fields "id" = Some id ->
  id <> JNull ->
  exists (envelope : list (string * json)) (st : Z),
    mcp_endpoint W request = Ok {| body := Some (JObj envelope); status := st |}
    /\ dict_get envelope "id" = Some id
    /\ xorb (has_key envelope "result") (has_key envelope "error") = true.
Proof.
  intros Hj Hid Hnn.
  assert (Hfid : field_id fields = id) by (unfold field_id; now rewrite Hid).
  assert (Hnone : is_None id = false) by (destruct id; simpl; congruence).
  destruct (header_rejected (request_authorization request)) eqn:Hr.
  - rewrite (endpoint_header_rejected W request fields Hj Hr), Hfid.
    eexists. exists 401. split; [reflexivity|]. split; reflexivity.
  - destruct (request_authorization request) as [h|] eqn:Hh; [|discriminate].
    assert (Hp : startswith h "Bearer " = true).
    { unfold header_rejected in Hr. apply orb_false_iff in Hr as [_ Hr].
      now apply negb_false_iff in Hr. }
    destruct (bearer_has_token h Hp) as [token Ht].
    destruct (authorized W (request_authorization request)) eqn:Ha.
    + rewrite (endpoint_authorized W request fields Hj Ha), Hfid.
      destruct (dispatch_envelope W (field_method fields)
                  (field_params fields) id Hnone) as (env & -> & H1 & H2).
      exists env, 200. auto.
    + assert (Hs : getenv_MCP_TOKEN W <> Some token).
      { intros Hs. unfold authorized, bearer_token in Ha.
        rewrite Hh, Hp, Ht, Hs, String.eqb_refl in Ha. discriminate. }
      rewrite (endpoint_token_mismatch W request fields h token Hj Hh Hp Ht Hs),
        Hfid.
      eexists. exists 401. split; [reflexivity|]. split; reflexivity.
Qed.

Lemma C2_witness :
  exists (envelope : list (string * json)) (st : Z),
    mcp_endpoint Demo.world Examples.ping
    = Ok {| body := Some (JObj envelope); status := st |}
    /\ dict_get envelope "id" = Some (JStr "a1")
    /\ xorb (has_key envelope "result") (has_key envelope "error") = true.
Proof.
  apply (C2_one_envelope_same_id Demo.world Examples.ping
           Examples.ping_fields (JStr "a1")).
  - reflexivity.
  - reflexivity.
  - discriminate.
Defined.

(** C3, as stated, fails: a notification that does not pass the bearer
    check is answered 401 with a JSON-RPC error envelope. *)
Lemma C3_counterexample :
  mcp_endpoint Demo.world Examples.anonymous_notification
  = Ok ({| body :=
             Some (JObj [ ("jsonrpc", JStr "2.0");
                          ("error",
                            JObj [ ("code", JInt (-32000));
                                   ("message",
                                     JStr "Unauthorized: Missing or invalid Authorization header") ]);
                          ("id", JNull) ]);
           status := 401 |})
  /\ dict_get Examples.initialized_fields "id" = None
  /\ mcp_endpoint Demo.world Examples.anonymous_notification
     <> Ok no_content.
Proof.
  split; [reflexivity|]. split; [reflexivity|]. discriminate.
Qed.

(** C3, amended: a request that passes the bearer check and whose id is
    absent or null is answered 204 with an empty body, whatever its method
    and its params. *)
Theorem C3_notification_no_content (W : World) (request : Request)
  (fields : list (string * json)) :
  request_get_json request = Ok (JObj fields) ->
  authorized W (request_authorization request) = true ->
  dict_get fields "id" = None \/ dict_get fields "id" = Some JNull ->
  mcp_endpoint W request = Ok {| body := None; status := 204 |}.
Proof.
  intros Hj Ha Hid.
  rewrite (endpoint_authorized W request fields Hj Ha).
  assert (Hfid : field_id fields = JNull).
  { unfold field_id. destruct Hid as [-> | ->]; reflexivity. }
  unfold dispatch. rewrite Hfid. simpl.
  destruct (recognized_notification (field_method fields)); reflexivity.
Qed.

Lemma C3_witness :
  mcp_endpoint Demo.world Examples.notification
  = Ok {| body := None; status := 204 |}.
Proof.
  apply (C3_notification_no_content Demo.world Examples.notification
           Examples.initialized_fields).
  - reflexivity.
  - reflexivity.
  - left. reflexivity.
Defined.

(* ================================================================== *)
(** * Authentication *)
(* ================================================================== *)

(** What [dispatch] can answer. *)
Lemma dispatch_cases (W : World) (method params id : json) :
  (is_None id = true /\ dispatch W method params id = no_content)
  \/ (is_None id = false
      /\ ((exists result,
             dispatch W method params id
             = respond (result_envelope result id) 200)
          \/ (exists message,
                dispatch W method params id
                = respond (error_envelope (-32603) message id) 200))).
Proof.
  unfold dispatch. destruct (is_None id).
  - left. split; [reflexivity|].
    destruct (recognized_notification method); reflexivity.
  - right. split; [reflexivity|].
    destruct (handle_request W method params) as [result|e].
    + left. eexists. reflexivity.
    + destruct (eq_str method "tools/call").
      * left. eexists. reflexivity.
      * right. eexists. reflexivity.
Qed.

(** With the right token the view goes on to the notification check and
    the router, and answers as they decide. *)
Lemma dispatch_explicit (W : World) (method params id : json) :
  (id = JNull ->
   dispatch W method params id = {| body := None; status := 204 |})
  /\ (id <> JNull ->
      forall result, handle_request W method params = Ok result ->
      dispatch W method params id
      = {| body :=
             Some (JObj [ ("jsonrpc", JStr "2.0"); ("result", result);
                          ("id", id) ]);
           status := 200 |})
  /\ (id <> JNull -> method = JStr "tools/call" ->
      forall e, handle_request W method params = Raise e ->
      dispatch W method params id
      = {| body :=
             Some (JObj [ ("jsonrpc", JStr "2.0");
                          ("result",
                            JObj [ ("isError", JBool true);
                                   ("content",
                                     JArr [JObj [ ("type", JStr "text");
                                                  ("text",
                                                    JStr ("Internal tool error: "
                                                            ++ exn_str e)) ]]) ]);
                          ("id", id) ]);
           status := 200 |})
  /\ (id <> JNull -> method <> JStr "tools/call" ->
      forall e, handle_request W method params = Raise e ->
      dispatch W method params id
      = {| body :=
             Some (JObj [ ("jsonrpc", JStr "2.0");
                          ("error",
                            JObj [ ("code", JInt (-32603));
                                   ("message",
                                     JStr ("Internal error: " ++ exn_str e)) ]);
                          ("id", id) ]);
           status := 200 |}).
Proof.
  unfold dispatch. split; [|split; [|split]].
  - intros ->. simpl. destruct (recognized_notification method); reflexivity.
  - intros Hid result ->. destruct id; try reflexivity. congruence.
  - intros Hid -> e ->. destruct id; try reflexivity. congruence.
  - intros Hid Hm e ->. rewrite (eq_str_neq _ _ Hm).
    destruct id; try reflexivity. congruence.
Qed.

(** C4, as stated, fails: a body that is valid JSON and no object makes
    the view raise while it reads the envelope, before the header is looked
    at; a request without a header then gets no 401. *)
Lemma C4_counterexample :
  request_authorization Examples.anonymous_list_body = None
  /\ mcp_endpoint Demo.world Examples.anonymous_list_body
     = Raise (Exn "AttributeError" "'list' object has no attribute 'get'")
  /\ forall resp,
       mcp_endpoint Demo.world Examples.anonymous_list_body <> Ok resp.
Proof.
  split; [reflexivity|]. split; [reflexivity|]. discriminate.
Qed.

(** C4, amended: for a request whose body parses to a JSON object, the
    bearer check runs after the body was parsed and before notifications
    and dispatch are looked at.  A body that does not parse is answered
    200 with the parse error -32700 whatever the header; once an object
    was parsed, a missing header or one that does not start with [Bearer ]
    gives 401 with code -32000 and the first message, a token other than
    the configured secret gives 401 with code -32000 and the second
    message, both whatever the id and the method are, and the right token
    lets the request through: it is answered 204 when it has no id, and
    otherwise 200 with what the router returned or raised. *)
Theorem C4_auth_after_parse_before_dispatch (W : World) (request : Request) :
  (forall e, request_get_json request = Raise e ->
     mcp_endpoint W request
     = Ok {| body :=
               Some (JObj [ ("jsonrpc", JStr "2.0");
                            ("error",
                              JObj [ ("code", JInt (-32700));
                                     ("message",
                                       JStr ("Parse error: " ++ exn_str e)) ]);
                            ("id", JNull) ]);
             status := 200 |})
  /\ (forall fields, request_get_json request = Ok (JObj fields) ->
      (request_authorization request = None
       \/ (exists h, request_authorization request = Some h
                     /\ startswith h "Bearer " = false)) ->
      mcp_endpoint W request
      = Ok {| body :=
                Some (JObj [ ("jsonrpc", JStr "2.0");
                             ("error",
                               JObj [ ("code", JInt (-32000));
                                      ("message",
                                        JStr "Unauthorized: Missing or invalid Authorization header") ]);
                             ("id", field_id fields) ]);
              status := 401 |})
  /\ (forall fields h token,
      request_get_json request = Ok (JObj fields) ->
      request_authorization request = Some h ->
      startswith h "Bearer " = true ->
      nth_error (split_space h) 1 = Some token ->
      getenv_MCP_TOKEN W <> Some token ->
      mcp_endpoint W request
      = Ok {| body :=
                Some (JObj [ ("jsonrpc", JStr "2.0");
                             ("error",
                               JObj [ ("code", JInt (-32000));
                                      ("message",
                                        JStr "Unauthorized: Invalid MCP Auth token") ]);
                             ("id", field_id fields) ]);
              status := 401 |})
  /\ (forall fields h token,
      request_get_json request = Ok (JObj fields) ->
      request_authorization request = Some h ->
      startswith h "Bearer " = true ->
      nth_error (split_space h) 1 = Some token ->
      getenv_MCP_TOKEN W = Some token ->
      (field_id fields = JNull ->
       mcp_endpoint W request = Ok {| body := None; status := 204 |})
      /\ (field_id fields <> JNull ->
          forall result,
            handle_request W (field_method fields) (field_params fields)
            = Ok result ->
            mcp_endpoint W request
            = Ok {| body :=
                      Some (JObj [ ("jsonrpc", JStr "2.0");
                                   ("result", result);
                                   ("id", field_id fields) ]);
                    status := 200 |})
      /\ (field_id fields <> JNull ->
          field_method fields = JStr "tools/call" ->
          forall e,
            handle_request W (field_method fields) (field_params fields)
            = Raise e ->
            mcp_endpoint W request
            = Ok {| body :=
                      Some (JObj [ ("jsonrpc", JStr "2.0");
                                   ("result",
                                     JObj [ ("isError", JBool true);
                                            ("content",
                                              JArr [JObj [ ("type", JStr "text");
                                                           ("text",
                                                             JStr ("Internal tool error: "
                                                                     ++ exn_str e)) ]]) ]);
                                   ("id", field_id fields) ]);
                    status := 200 |})
      /\ (field_id fields <> JNull ->
          field_method fields <> JStr "tools/call" ->
          forall e,
            handle_request W (field_method fields) (field_params fields)
            = Raise e ->
            mcp_endpoint W request
            = Ok {| body :=
                      Some (JObj [ ("jsonrpc", JStr "2.0");
                                   ("error",
                                     JObj [ ("code", JInt (-32603));
                                            ("message",
                                              JStr ("Internal error: "
                                                      ++ exn_str e)) ]);
                                   ("id", field_id fields) ]);
                    status := 200 |})).
Proof.
  split; [|split; [|split]].
  - intros e He. unfold mcp_endpoint. rewrite He. reflexivity.
  - intros fields Hj Hbad.
    apply (endpoint_header_rejected W request fields Hj).
    destruct Hbad as [-> | (h & -> & Hp)]; [reflexivity|].
    unfold header_rejected. rewrite Hp. apply orb_true_r.
  - intros fields h token Hj Hh Hp Ht Hs.
    exact (endpoint_token_mismatch W request fields h token Hj Hh Hp Ht Hs).
  - intros fields h token Hj Hh Hp Ht Hs.
    assert (Ha : authorized W (request_authorization request) = true).
    { unfold authorized, bearer_token. rewrite Hh, Hp, Ht, Hs.
      apply String.eqb_refl. }
    rewrite (endpoint_authorized W request fields Hj Ha).
    destruct (dispatch_explicit W (field_method fields) (field_params fields)
                (field_id fields)) as (D1 & D2 & D3 & D4).
    split; [|split; [|split]].
    + intros Hid. now rewrite (D1 Hid).
    + intros Hid result Hr. now rewrite (D2 Hid result Hr).
    + intros Hid Hm e Hr. now rewrite (D3 Hid Hm e Hr).
    + intros Hid Hm e Hr. now rewrite (D4 Hid Hm e Hr).
Qed.

Lemma C4_witness :
  mcp_endpoint Demo.world Examples.broken_body
  = Ok {| body :=
            Some (JObj [ ("jsonrpc", JStr "2.0");
                         ("error",
                           JObj [ ("code", JInt (-32700));
                                  ("message",
                                    JStr "Parse error: 400 Bad Request: Failed to decode JSON object") ]);
                         ("id", JNull) ]);
          status := 200 |}
  /\ mcp_endpoint Demo.world Examples.ping_basic_auth
     = Ok {| body :=
               Some (JObj [ ("jsonrpc", JStr "2.0");
                            ("error",
                              JObj [ ("code", JInt (-32000));
                                     ("message",
                                       JStr "Unauthorized: Missing or invalid Authorization header") ]);
                            ("id", JStr "a1") ]);
             status := 401 |}
  /\ mcp_endpoint Demo.world Examples.ping_wrong_token
     = Ok {| body :=
               Some (JObj [ ("jsonrpc", JStr "2.0");
                            ("error",
                              JObj [ ("code", JInt (-32000));
                                     ("message",
                                       JStr "Unauthorized: Invalid MCP Auth token") ]);
                            ("id", JStr "a1") ]);
             status := 401 |}
  /\ mcp_endpoint Demo.world Examples.notification
     = Ok {| body := None; status := 204 |}
  /\ mcp_endpoint Demo.world Examples.initialize_call
     = Ok {| body :=
               Some (JObj [ ("jsonrpc", JStr "2.0");
                            ("result", handle_initialize);
                            ("id", JInt 7) ]);
             status := 200 |}
  /\ mcp_endpoint Demo.world Examples.ping
     = Ok {| body :=
               Some (JObj [ ("jsonrpc", JStr "2.0");
                            ("error",
                              JObj [ ("code", JInt (-32603));
                                     ("message",
                                       JStr "Internal error: Method not found: ping") ]);
                            ("id", JStr "a1") ]);
             status := 200 |}.
Proof.
  split; [|split; [|split; [|split; [|split]]]].
  - apply (proj1 (C4_auth_after_parse_before_dispatch Demo.world
                    Examples.broken_body)
             (Exn "BadRequest"
                "400 Bad Request: Failed to decode JSON object")).
    reflexivity.
  - apply (proj1 (proj2 (C4_auth_after_parse_before_dispatch Demo.world
                           Examples.ping_basic_auth)) Examples.ping_fields).
    + reflexivity.
    + right. exists "Basic s3cret". split; reflexivity.
  - apply (proj1 (proj2 (proj2 (C4_auth_after_parse_before_dispatch
                                  Demo.world Examples.ping_wrong_token)))
             Examples.ping_fields "Bearer guess" "guess").
    + reflexivity.
    + reflexivity.
    + reflexivity.
    + reflexivity.
    + discriminate.
  - apply (proj1 (proj2 (proj2 (proj2 (C4_auth_after_parse_before_dispatch
                                         Demo.world Examples.notification)))
                    Examples.initialized_fields "Bearer s3cret" "s3cret"
                    eq_refl eq_refl eq_refl eq_refl eq_refl)).
    reflexivity.
  - apply (proj1 (proj2 (proj2 (proj2 (proj2
             (C4_auth_after_parse_before_dispatch Demo.world
                Examples.initialize_call)))
             Examples.initialize_fields "Bearer s3cret" "s3cret"
             eq_refl eq_refl eq_refl eq_refl eq_refl))).
    + discriminate.
    + reflexivity.
  - apply (proj2 (proj2 (proj2 (proj2 (proj2 (proj2
             (C4_auth_after_parse_before_dispatch Demo.world Examples.ping)))
             Examples.ping_fields "Bearer s3cret" "s3cret"
             eq_refl eq_refl eq_refl eq_refl eq_refl)))
             ltac:(discriminate) ltac:(discriminate)
             (ValueError "Method not found: ping")).
    reflexivity.
Defined.

(** C9, as stated, fails: with a secret of two words, a header that
    spells the secret out after [Bearer ] and goes on is rejected; the
    token is the first word only. *)
Lemma C9_counterexample :
  request_authorization Examples.ping_two_words
  = Some ("Bearer " ++ "two words" ++ " " ++ "and more")
  /\ getenv_MCP_TOKEN (Demo.world_with_token (Some "two words"))
     = Some "two words"
  /\ extract_token ("Bearer " ++ "two words" ++ " " ++ "and more") = Ok "two"
  /\ mcp_endpoint (Demo.world_with_token (Some "two words"))
       Examples.ping_two_words
     = Ok {| body :=
               Some (JObj [ ("jsonrpc", JStr "2.0");
                            ("error",
                              JObj [ ("code", JInt (-32000));
                                     ("message",
                                       JStr "Unauthorized: Invalid MCP Auth token") ]);
                            ("id", JStr "a1") ]);
             status := 401 |}.
Proof.
  repeat split; reflexivity.
Qed.

(** C9, amended: for a request whose body parses to a JSON object and a
    header [Bearer tok rest] in which [tok] holds no space, [tok] alone is
    the token, whatever [rest] is.  The request passes the check when
    [tok] is the configured secret: it is answered as the router decides,
    never 401.  It is answered 401 "Invalid MCP Auth token" when [tok] is
    not the secret, also when [rest] holds the secret.  In both cases the
    answer is the one the header [Bearer tok] gets.  The header [Bearer ]
    is not rejected as malformed and yields the empty token without
    raising; with a secret that is not empty it is answered 401 "Invalid
    MCP Auth token". *)
Theorem C9_second_segment_only (W : World) (request : Request)
  (fields : list (string * json)) (tok rest : string) :
  request_get_json request = Ok (JObj fields) ->
  has_space tok = false ->
  request_authorization request = Some ("Bearer " ++ tok ++ " " ++ rest) ->
  extract_token ("Bearer " ++ tok ++ " " ++ rest) = Ok tok
  /\ (getenv_MCP_TOKEN W = Some tok ->
      exists resp,
        mcp_endpoint W request = Ok resp
        /\ resp = dispatch W (field_method fields) (field_params fields)
                    (field_id fields)
        /\ status resp <> 401)
  /\ (getenv_MCP_TOKEN W <> Some tok ->
      mcp_endpoint W request
      = Ok {| body :=
                Some (JObj [ ("jsonrpc", JStr "2.0");
                             ("error",
                               JObj [ ("code", JInt (-32000));
                                      ("message",
                                        JStr "Unauthorized: Invalid MCP Auth token") ]);
                             ("id", field_id fields) ]);
              status := 401 |})
  /\ (forall request',
        request_get_json request' = Ok (JObj fields) ->
        request_authorization request' = Some ("Bearer " ++ tok) ->
        mcp_endpoint W request' = mcp_endpoint W request)
  /\ header_rejected (Some "Bearer ") = false
  /\ extract_token "Bearer " = Ok ""
  /\ (forall request',
        request_get_json request' = Ok (JObj fields) ->
        request_authorization request' = Some "Bearer " ->
        getenv_MCP_TOKEN W <> Some "" ->
        mcp_endpoint W request'
        = Ok {| body :=
                  Some (JObj [ ("jsonrpc", JStr "2.0");
                               ("error",
                                 JObj [ ("code", JInt (-32000));
                                        ("message",
                                          JStr "Unauthorized: Invalid MCP Auth token") ]);
                               ("id", field_id fields) ]);
                status := 401 |}).
Proof.
  intros Hj Hsp Hh.
  set (h := "Bearer " ++ tok ++ " " ++ rest) in *.
  assert (Hp : startswith h "Bearer " = true)
    by exact (startswith_app "Bearer " (tok ++ " " ++ rest)).
  assert (Ht : nth_error (split_space h) 1 = Some tok).
  { subst h.
    change ("Bearer " ++ tok ++ " " ++ rest)
      with ("Bearer" ++ String " "%char (tok ++ String " "%char rest)).
    rewrite split_space_segment by reflexivity.
    rewrite split_space_segment by exact Hsp. reflexivity. }
  assert (Hp' : startswith ("Bearer " ++ tok) "Bearer " = true)
    by exact (startswith_app "Bearer " tok).
  assert (Ht' : nth_error (split_space ("Bearer " ++ tok)) 1 = Some tok).
  { change ("Bearer " ++ tok) with ("Bearer" ++ String " "%char tok).
    rewrite split_space_segment by reflexivity.
    destruct tok as [|c tok'] eqn:Etok; [reflexivity|].
    rewrite <- Etok in *.
    assert (Hl : split_space tok = [tok]).
    { clear - Hsp. induction tok as [|a t IH]; simpl in *; [reflexivity|].
      apply orb_false_iff in Hsp as [Ha Ht]. rewrite Ha, (IH Ht).
      reflexivity. }
    rewrite Hl. reflexivity. }
  assert (Haccept : getenv_MCP_TOKEN W = Some tok ->
                    forall r a, request_get_json r = Ok (JObj fields) ->
                    request_authorization r = Some a ->
                    startswith a "Bearer " = true ->
                    nth_error (split_space a) 1 = Some tok ->
                    mcp_endpoint W r
                    = Ok (dispatch W (field_method fields)
                            (field_params fields) (field_id fields))).
  { intros Hs r a Hrj Hra Hpa Hta.
    apply (endpoint_authorized W r fields Hrj).
    unfold authorized, bearer_token. rewrite Hra, Hpa, Hta, Hs.
    apply String.eqb_refl. }
  split; [|split; [|split; [|split; [|split; [|split]]]]].
  - unfold extract_token. rewrite Ht. reflexivity.
  - intros Hs. eexists. split; [exact (Haccept Hs request h Hj Hh Hp Ht)|].
    split; [reflexivity|].
    destruct (dispatch_cases W (field_method fields) (field_params fields)
                (field_id fields))
      as [[_ ->] | [_ [[result ->] | [message ->]]]]; discriminate.
  - intros Hs.
    exact (endpoint_token_mismatch W request fields h tok Hj Hh Hp Ht Hs).
  - intros request' Hj' Hh'.
    destruct (getenv_MCP_TOKEN W) as [secret|] eqn:Hs.
    + destruct (String.eqb secret tok) eqn:E.
      * apply String.eqb_eq in E. subst secret.
        rewrite (Haccept eq_refl request' _ Hj' Hh' Hp' Ht').
        rewrite (Haccept eq_refl request h Hj Hh Hp Ht). reflexivity.
      * assert (Hne : Some secret <> Some tok).
        { intros Heq. injection Heq as ->.
          rewrite String.eqb_refl in E. discriminate. }
        assert (Hne' : getenv_MCP_TOKEN W <> Some tok) by now rewrite Hs.
        rewrite (endpoint_token_mismatch W request' fields _ tok Hj' Hh' Hp'
                   Ht' Hne').
        rewrite (endpoint_token_mismatch W request fields h tok Hj Hh Hp Ht
                   Hne').
        reflexivity.
    + assert (Hne' : getenv_MCP_TOKEN W <> Some tok) by now rewrite Hs.
      rewrite (endpoint_token_mismatch W request' fields _ tok Hj' Hh' Hp'
                 Ht' Hne').
      rewrite (endpoint_token_mismatch W request fields h tok Hj Hh Hp Ht
                 Hne').
      reflexivity.
  - reflexivity.
  - reflexivity.
  - intros request' Hj' Hh' Hs.
    exact (endpoint_token_mismatch W request' fields "Bearer " "" Hj' Hh'
             eq_refl eq_refl Hs).
Qed.

Lemma C9_witness :
  extract_token ("Bearer " ++ "s3cret" ++ " " ++ "and more") = Ok "s3cret"
  /\ (exists resp,
        mcp_endpoint Demo.world Examples.ping_trailing = Ok resp
        /\ resp = dispatch Demo.world (JStr "ping") (JObj []) (JStr "a1")
        /\ status resp <> 401)
  /\ mcp_endpoint (Demo.world_with_token (Some "more"))
       Examples.ping_trailing
     = Ok {| body :=
               Some (JObj [ ("jsonrpc", JStr "2.0");
                            ("error",
                              JObj [ ("code", JInt (-32000));
                                     ("message",
                                       JStr "Unauthorized: Invalid MCP Auth token") ]);
                            ("id", JStr "a1") ]);
             status := 401 |}
  /\ mcp_endpoint Demo.world Examples.ping
     = mcp_endpoint Demo.world Examples.ping_trailing
  /\ mcp_endpoint Demo.world Examples.ping_bare_bearer
     = Ok {| body :=
               Some (JObj [ ("jsonrpc", JStr "2.0");
                            ("error",
                              JObj [ ("code", JInt (-32000));
                                     ("message",
                                       JStr "Unauthorized: Invalid MCP Auth token") ]);
                            ("id", JStr "a1") ]);
             status := 401 |}.
Proof.
  destruct (C9_second_segment_only Demo.world Examples.ping_trailing
              Examples.ping_fields "s3cret" "and more"
              eq_refl eq_refl eq_refl)
    as (H1 & H2 & _ & H4 & _ & _ & H7).
  destruct (C9_second_segment_only (Demo.world_with_token (Some "more"))
              Examples.ping_trailing Examples.ping_fields "s3cret" "and more"
              eq_refl eq_refl eq_refl)
    as (_ & _ & H3 & _).
  split; [exact H1|]. split; [exact (H2 eq_refl)|].
  split; [apply H3; discriminate|].
  split; [exact (H4 Examples.ping eq_refl eq_refl)|].
  apply (H7 Examples.ping_bare_bearer eq_refl eq_refl). discriminate.
Defined.

(* ================================================================== *)
(** * The router *)
(* ================================================================== *)

(** C5: for a method other than [initialize], [tools/list] and
    [tools/call] the router raises "Method not found: <method>", and a
    request with an id that passed the bearer check is answered 200 with
    the protocol error -32603 (not -32601) whose message carries that
    text. *)
Theorem C5_unknown_method_internal_error (W : World) (request : Request)
  (fields : list (string * json)) :
  request_get_json request = Ok (JObj fields) ->
  authorized W (request_authorization request) = true ->
  field_id fields <> JNull ->
  field_method fields <> JStr "initialize" ->
  field_method fields <> JStr "tools/list" ->
  field_method fields <> JStr "tools/call" ->
  handle_request W (field_method fields) (field_params fields)
  = Raise (Exn "ValueError"
             ("Method not found: " ++ str W (field_method fields)))
  /\ mcp_endpoint W request
     = Ok {| body :=
               Some (JObj [ ("jsonrpc", JStr "2.0");
                            ("error",
                              JObj [ ("code", JInt (-32603));
                                     ("message",
                                       JStr ("Internal error: Method not found: "
                                               ++ str W (field_method fields))) ]);
                            ("id", field_id fields) ]);
             status := 200 |}.
Proof.
  intros Hj Ha Hid H1 H2 H3.
  assert (Hr : handle_request W (field_method fields) (field_params fields)
               = Raise (ValueError ("Method not found: "
                                      ++ str W (field_method fields)))).
  { unfold handle_request.
    rewrite (eq_str_neq _ _ H1), (eq_str_neq _ _ H2), (eq_str_neq _ _ H3).
    reflexivity. }
  split; [exact Hr|].
  rewrite (endpoint_authorized W request fields Hj Ha).
  unfold dispatch. rewrite Hr, (eq_str_neq _ _ H3).
  destruct (field_id fields); try reflexivity. congruence.
Qed.

Lemma C5_witness :
  handle_request Demo.world (JStr "ping") (JObj [])
  = Raise (Exn "ValueError" "Method not found: ping")
  /\ mcp_endpoint Demo.world Examples.ping
     = Ok {| body :=
               Some (JObj [ ("jsonrpc", JStr "2.0");
                            ("error",
                              JObj [ ("code", JInt (-32603));
                                     ("message",
                                       JStr "Internal error: Method not found: ping") ]);
                            ("id", JStr "a1") ]);
             status := 200 |}.
Proof.
  apply (C5_unknown_method_internal_error Demo.world Examples.ping
           Examples.ping_fields); try reflexivity; discriminate.
Defined.

(** C7: [tools/list] answers every call, whatever its params, with the
    whole registry: one descriptor, named [forecast_time_series], whose
    input schema is an object with the properties [ds] (array of strings),
    [y] (array of numbers) and [periods] (integer, default 10), of which
    [ds] and [y] are required, and which allows no other property. *)
Theorem C7_tools_list_registry (W : World) (params : json) :
  handle_request W (JStr "tools/list") params = Ok handle_tools_list
  /\ exists tool schema properties,
       handle_tools_list = JObj [("tools", JArr [tool])]
       /\ at_path tool ["name"] = Some (JStr "forecast_time_series")
       /\ at_path tool ["inputSchema"] = Some schema
       /\ at_path schema ["type"] = Some (JStr "object")
       /\ at_path schema ["required"] = Some (JArr [JStr "ds"; JStr "y"])
       /\ at_path schema ["additionalProperties"] = Some (JBool false)
       /\ at_path schema ["properties"] = Some (JObj properties)
       /\ map fst properties = ["ds"; "y"; "periods"]
       /\ at_path (JObj properties) ["ds"; "type"] = Some (JStr "array")
       /\ at_path (JObj properties) ["ds"; "items"; "type"]
          = Some (JStr "string")
       /\ at_path (JObj properties) ["y"; "type"] = Some (JStr "array")
       /\ at_path (JObj properties) ["y"; "items"; "type"]
          = Some (JStr "number")
       /\ at_path (JObj properties) ["periods"; "type"]
          = Some (JStr "integer")
       /\ at_path (JObj properties) ["periods"; "default"] = Some (JInt 10).
Proof.
  split; [reflexivity|].
  do 3 eexists. repeat split; reflexivity.
Qed.

(** C8: [initialize] returns the same descriptor for every params value
    (and in every world): protocol version, server name and version, and a
    capabilities map whose only entry is an empty [tools] map.  The params
    are never inspected. *)
Theorem C8_initialize_input_independent (W W' : World) (params params' : json) :
  handle_request W (JStr "initialize") params = Ok handle_initialize
  /\ handle_request W (JStr "initialize") params
     = handle_request W' (JStr "initialize") params'
  /\ handle_initialize
     = JObj [ ("protocolVersion", JStr "2024-11-05");
              ("serverInfo",
                JObj [ ("name", JStr "prophet_mcp");
                       ("version", JStr "0.1.0") ]);
              ("capabilities", JObj [("tools", JObj [])]) ].
Proof.
  repeat split; reflexivity.
Qed.

(* ================================================================== *)
(** * Tool calls *)
(* ================================================================== *)

Section ToolCalls.

Variable W : World.

(** An authorised [tools/call] with an id: the view wraps what
    [handle_tool_call] returns as a result, and what it raises as an
    "Internal tool error" tool result. *)
Lemma endpoint_tool_call (request : Request) (fields : list (string * json)) :
  request_get_json request = Ok (JObj fields) ->
  authorized W (request_authorization request) = true ->
  field_id fields <> JNull ->
  field_method fields = JStr "tools/call" ->
  mcp_endpoint W request
  = Ok (respond
          (result_envelope
             (match handle_tool_call W (field_params fields) with
              | Ok result => result
              | Raise e => tool_error ("Internal tool error: " ++ exn_str e)
              end)
             (field_id fields)) 200).
Proof.
  intros Hj Ha Hid Hm.
  rewrite (endpoint_authorized W request fields Hj Ha).
  unfold dispatch. rewrite Hm.
  assert (Hn : is_None (field_id fields) = false)
    by (destruct (field_id fields); simpl; congruence).
  rewrite Hn. unfold handle_request. simpl.
  destruct (handle_tool_call W (field_params fields)); reflexivity.
Qed.

Lemma tool_call_unfold (pfields : list (string * json)) :
  handle_tool_call W (JObj pfields)
  = match decode_arguments W (param_arguments pfields) with
    | None =>
        Ok (tool_error "Invalid arguments: expected object or JSON string.")
    | Some arguments =>
        if eq_str (param_name pfields) "forecast_time_series" then
          data <- forecast_time_series W arguments ;;
          Ok (JObj [("content", text_content (json_dumps W data))])
        else Ok (tool_error ("Tool not found: " ++ str W (param_name pfields)))
    end.
Proof. reflexivity. Qed.

End ToolCalls.

(** C6, as stated, fails: with an argument string that is not JSON the
    handler answers "Invalid arguments" before it looks the tool up. *)
Lemma C6_counterexample :
  handle_tool_call Demo.world Examples.nope_bad_arguments
  = Ok (JObj [ ("isError", JBool true);
               ("content",
                 JArr [JObj [ ("type", JStr "text");
                              ("text",
                                JStr "Invalid arguments: expected object or JSON string.") ]]) ])
  /\ handle_tool_call Demo.world Examples.nope_bad_arguments
     <> Ok (JObj [ ("isError", JBool true);
                   ("content",
                     JArr [JObj [ ("type", JStr "text");
                                  ("text",
                                    JStr "Tool not found: nope") ]]) ]).
Proof.
  split; [reflexivity|discriminate].
Qed.

(** C6, amended: a [tools/call] whose params are an object, whose
    arguments are not a string or are a string that decodes as JSON, and
    whose tool name is not [forecast_time_series] gets the tool result
    [isError: true] with the text "Tool not found: <name>"; the view
    returns it inside a [result] envelope with status 200. *)
Theorem C6_tool_not_found (W : World) (request : Request)
  (fields pfields : list (string * json)) (arguments : json) :
  request_get_json request = Ok (JObj fields) ->
  authorized W (request_authorization request) = true ->
  field_id fields <> JNull ->
  field_method fields = JStr "tools/call" ->
  field_params fields = JObj pfields ->
  decode_arguments W (param_arguments pfields) = Some arguments ->
  param_name pfields <> JStr "forecast_time_series" ->
  handle_tool_call W (JObj pfields)
  = Ok (JObj [ ("isError", JBool true);
               ("content",
                 JArr [JObj [ ("type", JStr "text");
                              ("text",
                                JStr ("Tool not found: "
                                        ++ str W (param_name pfields))) ]]) ])
  /\ mcp_endpoint W request
     = Ok ({| body :=
                Some (JObj [ ("jsonrpc", JStr "2.0");
                             ("result",
                               JObj [ ("isError", JBool true);
                                      ("content",
                                        JArr [JObj [ ("type", JStr "text");
                                                     ("text",
                                                       JStr ("Tool not found: "
                                                               ++ str W (param_name pfields))) ]]) ]);
                             ("id", field_id fields) ]);
              status := 200 |}).
Proof.
  intros Hj Ha Hid Hm Hp Hd Hn.
  assert (Hc : handle_tool_call W (JObj pfields)
               = Ok (tool_error ("Tool not found: "
                                   ++ str W (param_name pfields)))).
  { rewrite tool_call_unfold, Hd, (eq_str_neq _ _ Hn). reflexivity. }
  split; [exact Hc|].
  rewrite (endpoint_tool_call W request fields Hj Ha Hid Hm), Hp, Hc.
  reflexivity.
Qed.

Lemma C6_witness :
  handle_tool_call Demo.world (JObj Examples.nope_params)
  = Ok (JObj [ ("isError", JBool true);
               ("content",
                 JArr [JObj [ ("type", JStr "text");
                              ("text", JStr "Tool not found: nope") ]]) ])
  /\ mcp_endpoint Demo.world Examples.nope_call
     = Ok ({| body :=
                Some (JObj [ ("jsonrpc", JStr "2.0");
                             ("result",
                               JObj [ ("isError", JBool true);
                                      ("content",
                                        JArr [JObj [ ("type", JStr "text");
                                                     ("text",
                                                       JStr "Tool not found: nope") ]]) ]);
                             ("id", JInt 3) ]);
              status := 200 |}).
Proof.
  apply (C6_tool_not_found Demo.world Examples.nope_call
           [ ("jsonrpc", JStr "2.0"); ("id", JInt 3);
             ("method", JStr "tools/call");
             ("params", JObj Examples.nope_params) ]
           Examples.nope_params (JObj []));
    try reflexivity; discriminate.
Defined.

(* ================================================================== *)
(** * The forecast tool *)
(* ================================================================== *)

Lemma series_min_spec (col : list (option Timestamp)) (m : Timestamp) :
  series_min col = Some m ->
  In (Some m) col /\ forall t, In (Some t) col -> m <= t.
Proof.
  revert m. induction col as [|[t|] col IH]; simpl; intros m H.
  - discriminate.
  - destruct (series_min col) as [u|] eqn:E.
    + injection H as <-. destruct (IH u eq_refl) as [Hin Hle]. split.
      * destruct (Z.min_spec t u) as [[_ ->] | [_ ->]]; auto.
      * intros t' [Ht' | Ht'].
        -- injection Ht' as <-. apply Z.le_min_l.
        -- specialize (Hle t' Ht'). lia.
    + injection H as <-. split; [auto|].
      intros t' [Ht' | Ht'].
      * injection Ht' as <-. lia.
      * exfalso. clear IH. induction col as [|[v|] col IHc]; simpl in *.
        -- contradiction.
        -- destruct (series_min col); discriminate.
        -- destruct Ht' as [Ht' | Ht']; [discriminate|]. auto.
  - destruct (IH m H) as [Hin Hle]. split; [auto|].
    intros t' [Ht' | Ht']; [discriminate|auto].
Qed.

Lemma series_max_spec (col : list (option Timestamp)) (m : Timestamp) :
  series_max col = Some m ->
  In (Some m) col /\ forall t, In (Some t) col -> t <= m.
Proof.
  revert m. induction col as [|[t|] col IH]; simpl; intros m H.
  - discriminate.
  - destruct (series_max col) as [u|] eqn:E.
    + injection H as <-. destruct (IH u eq_refl) as [Hin Hle]. split.
      * destruct (Z.max_spec t u) as [[_ ->] | [_ ->]]; auto.
      * intros t' [Ht' | Ht'].
        -- injection Ht' as <-. apply Z.le_max_l.
        -- specialize (Hle t' Ht'). lia.
    + injection H as <-. split; [auto|].
      intros t' [Ht' | Ht'].
      * injection Ht' as <-. lia.
      * exfalso. clear IH. induction col as [|[v|] col IHc]; simpl in *.
        -- contradiction.
        -- destruct (series_max col); discriminate.
        -- destruct Ht' as [Ht' | Ht']; [discriminate|]. auto.
  - destruct (IH m H) as [Hin Hle]. split; [auto|].
    intros t' [Ht' | Ht']; [discriminate|auto].
Qed.

Section Forecast.

Variable W : World.

(** The adapter up to the conversion of the dates, on two lists of one
    length and a horizon [int] accepts. *)
Lemma forecast_unfold (afields : list (string * json)) (dsl yl : list json)
  (f : Z) :
  dict_get afields "ds" = Some (JArr dsl) ->
  dict_get afields "y" = Some (JArr yl) ->
  length dsl = length yl ->
  py_int W (arg_periods afields) = Ok f ->
  forecast_time_series W (JObj afields)
  = (ds_col <- to_datetime W dsl ;;
     let df := {| df_rows := length dsl; df_ds := ds_col; df_y := yl |} in
     match prophet_predict W df f with
     | Raise e => Ok (JObj [("error", JStr (exn_str e))])
     | Ok forecast =>
         start <- scalar_strftime (series_min ds_col) ;;
         end_ <- scalar_strftime (series_max ds_col) ;;
         Ok (JObj [ ("meta",
                      JObj [ ("f", JInt f);
                             ("n_history", JInt (Z.of_nat (length dsl)));
                             ("start", JStr start);
                             ("end", JStr end_) ]);
                    ("forecast", JArr (map forecast_record forecast)) ])
     end).
Proof.
  intros Hds Hy Hlen Hf.
  unfold forecast_time_series. cbn [get bind]. rewrite Hds, Hy.
  fold (arg_periods afields). rewrite Hf. cbn [bind].
  unfold pd_DataFrame. rewrite Hlen, Nat.eqb_refl. cbn [bind df_ds].
  reflexivity.
Qed.

End Forecast.

(** C10: the dates are converted before the [try] block.  When the
    conversion of the [ds] list raises, the adapter raises too (it returns
    no [error] payload), and the view answers the call 200 with the tool
    result [isError: true] and the text "Internal tool error: <detail>".
    The detail is the text of the conversion's exception when [ds] and [y]
    have one length and [int] accepts the horizon; otherwise [int] or the
    frame constructor raised first and the detail is theirs. *)
Theorem C10_unparseable_date_is_internal_tool_error (W : World)
  (request : Request) (fields pfields afields : list (string * json))
  (dsl yl : list json) (e : exn) :
  request_get_json request = Ok (JObj fields) ->
  authorized W (request_authorization request) = true ->
  field_id fields <> JNull ->
  field_method fields = JStr "tools/call" ->
  field_params fields = JObj pfields ->
  param_name pfields = JStr "forecast_time_series" ->
  decode_arguments W (param_arguments pfields) = Some (JObj afields) ->
  dict_get afields "ds" = Some (JArr dsl) ->
  dict_get afields "y" = Some (JArr yl) ->
  to_datetime W dsl = Raise e ->
  exists detail,
    forecast_time_series W (JObj afields) = Raise detail
    /\ (forall payload, forecast_time_series W (JObj afields) <> Ok payload)
    /\ mcp_endpoint W request
       = Ok {| body :=
                 Some (JObj [ ("jsonrpc", JStr "2.0");
                              ("result",
                                JObj [ ("isError", JBool true);
                                       ("content",
                                         JArr [JObj [ ("type", JStr "text");
                                                      ("text",
                                                        JStr ("Internal tool error: "
                                                                ++ exn_str detail)) ]]) ]);
                              ("id", field_id fields) ]);
               status := 200 |}
    /\ (length dsl = length yl ->
        (exists f, py_int W (arg_periods afields) = Ok f) ->
        detail = e).
Proof.
  intros Hj Ha Hid Hm Hp Hn Hd Hds Hy Hraise.
  assert (Hfc : exists detail,
             forecast_time_series W (JObj afields) = Raise detail
             /\ (length dsl = length yl ->
                 (exists f, py_int W (arg_periods afields) = Ok f) ->
                 detail = e)).
  { destruct (py_int W (arg_periods afields)) as [f|e1] eqn:Hf.
    - destruct (Nat.eqb (length dsl) (length yl)) eqn:Hlen.
      + apply Nat.eqb_eq in Hlen. exists e. split; [|reflexivity].
        rewrite (forecast_unfold W afields dsl yl f Hds Hy Hlen Hf), Hraise.
        reflexivity.
      + eexists. split.
        * unfold forecast_time_series. cbn [get bind]. rewrite Hds, Hy.
          fold (arg_periods afields). rewrite Hf. cbn [bind].
          unfold pd_DataFrame. rewrite Hlen. reflexivity.
        * intros Heq. apply Nat.eqb_neq in Hlen. contradiction.
    - exists e1. split.
      + unfold forecast_time_series. cbn [get bind].
        fold (arg_periods afields). rewrite Hf. reflexivity.
      + intros _ [f Hf']. discriminate. }
  destruct Hfc as (detail & Hfc & Hsame).
  exists detail. split; [exact Hfc|].
  split; [intros payload; rewrite Hfc; discriminate|].
  split; [|exact Hsame].
  rewrite (endpoint_tool_call W request fields Hj Ha Hid Hm), Hp.
  rewrite tool_call_unfold, Hd, Hn, Hfc. reflexivity.
Qed.

Lemma C10_witness :
  exists detail,
    forecast_time_series Demo.world (JObj Examples.bad_date_arguments)
    = Raise detail
    /\ mcp_endpoint Demo.world Examples.bad_date_call
       = Ok {| body :=
                 Some (JObj [ ("jsonrpc", JStr "2.0");
                              ("result",
                                JObj [ ("isError", JBool true);
                                       ("content",
                                         JArr [JObj [ ("type", JStr "text");
                                                      ("text",
                                                        JStr ("Internal tool error: "
                                                                ++ exn_str detail)) ]]) ]);
                              ("id", JInt 2) ]);
               status := 200 |}
    /\ detail
       = Exn "ValueError"
           "Unknown datetime string format, unable to parse: not-a-date".
Proof.
  assert (Hid : field_id
                  [ ("jsonrpc", JStr "2.0"); ("id", JInt 2);
                    ("method", JStr "tools/call");
                    ("params",
                      JObj [ ("name", JStr "forecast_time_series");
                             ("arguments",
                               JObj Examples.bad_date_arguments) ]) ]
                <> JNull) by discriminate.
  destruct (C10_unparseable_date_is_internal_tool_error Demo.world
              Examples.bad_date_call
              [ ("jsonrpc", JStr "2.0"); ("id", JInt 2);
                ("method", JStr "tools/call");
                ("params",
                  JObj [ ("name", JStr "forecast_time_series");
                         ("arguments", JObj Examples.bad_date_arguments) ]) ]
              [ ("name", JStr "forecast_time_series");
                ("arguments", JObj Examples.bad_date_arguments) ]
              Examples.bad_date_arguments
              [JStr "2021-01-01"; JStr "not-a-date"] [JInt 1; JInt 2]
              (ValueError
                 "Unknown datetime string format, unable to parse: not-a-date")
              eq_refl eq_refl Hid eq_refl eq_refl eq_refl eq_refl eq_refl
              eq_refl eq_refl)
    as (detail & H1 & _ & H3 & H4).
  exists detail. split; [exact H1|]. split; [exact H3|].
  apply H4; [reflexivity|]. exists 10. reflexivity.
Defined.

(* ================================================================== *)
(** * The shape of a formatted timestamp *)
(* ================================================================== *)

Lemma all_from_spec (f : Z -> bool) (n : nat) (lo : Z) :
  all_from n lo f = true ->
  forall z, lo <= z < lo + Z.of_nat n -> f z = true.
Proof.
  revert lo. induction n as [|n IH]; intros lo H z Hz.
  - simpl in Hz. lia.
  - simpl in H. apply andb_true_iff in H as [H0 H1].
    destruct (Z.eq_dec z lo) as [-> | Hne]; [exact H0|].
    apply (IH (lo + 1) H1). lia.
Qed.

Lemma matches_shape_app (p1 p2 s1 s2 : string) :
  matches_shape p1 s1 = true ->
  matches_shape p2 s2 = true ->
  matches_shape (p1 ++ p2) (s1 ++ s2) = true.
Proof.
  revert s1. induction p1 as [|p p1 IH]; intros [|c s1] H1 H2;
    simpl in *; try discriminate; [exact H2|].
  apply andb_true_iff in H1 as [Hc H1].
  rewrite Hc. simpl. exact (IH s1 H1 H2).
Qed.

Lemma pad2_shape (n : Z) :
  0 <= n <= 99 -> matches_shape "dd" (pad2 n) = true.
Proof.
  intros Hn.
  apply (all_from_spec (fun n => matches_shape "dd" (pad2 n)) 100 0);
    [vm_compute; reflexivity | lia].
Qed.

Lemma year_shape (y : Z) :
  1600 <= y <= 2401 -> matches_shape "dddd" (str_int y) = true.
Proof.
  intros Hy.
  apply (all_from_spec (fun y => matches_shape "dddd" (str_int y)) 802 1600);
    [vm_compute; reflexivity | lia].
Qed.

Lemma civil_from_days_bounds (days : Z) :
  -106752 <= days <= 106751 ->
  1600 <= fst (fst (civil_from_days days)) <= 2401
  /\ 1 <= snd (fst (civil_from_days days)) <= 12
  /\ 1 <= snd (civil_from_days days) <= 31.
Proof.
  intros Hd. unfold civil_from_days. cbv zeta. cbn [fst snd].
  set (z := days + 719468).
  assert (Hera : 4 <= z / 146097 <= 5).
  { subst z. Z.to_euclidean_division_equations. lia. }
  set (era := z / 146097) in *.
  set (doe := z - era * 146097).
  assert (Hdoe : 0 <= doe <= 146096).
  { subst doe era. Z.to_euclidean_division_equations. lia. }
  set (yoe := (doe - doe / 1460 + doe / 36524 - doe / 146096) / 365).
  assert (Hyoe : 0 <= yoe <= 399).
  { subst yoe. Z.to_euclidean_division_equations. lia. }
  set (doy := doe - (365 * yoe + yoe / 4 - yoe / 100)).
  assert (Hdoy : 0 <= doy <= 365).
  { subst doy yoe. Z.to_euclidean_division_equations. lia. }
  set (mp := (5 * doy + 2) / 153).
  assert (Hmp : 0 <= mp <= 11).
  { subst mp. Z.to_euclidean_division_equations. lia. }
  assert (Hday : 1 <= doy - (153 * mp + 2) / 5 + 1 <= 31).
  { subst mp. Z.to_euclidean_division_equations. lia. }
  split; [|split]; [| |exact Hday].
  - destruct (_ <=? 2); lia.
  - destruct (mp <? 10) eqn:E; [apply Z.ltb_lt in E | apply Z.ltb_ge in E];
      lia.
Qed.

Lemma strftime_date_shape (days : Z) :
  -106752 <= days <= 106751 ->
  matches_shape "dddd-dd-dd" (strftime_date days) = true.
Proof.
  intros Hd. destruct (civil_from_days_bounds days Hd) as (Hy & Hm & Hdd).
  unfold strftime_date.
  destruct (civil_from_days days) as [[y m] d]. cbn [fst snd] in *.
  apply (matches_shape_app "dddd" "-dd-dd"); [exact (year_shape y Hy)|].
  apply (matches_shape_app "-" "dd-dd"); [reflexivity|].
  apply (matches_shape_app "dd" "-dd"); [apply pad2_shape; lia|].
  apply (matches_shape_app "-" "dd"); [reflexivity|].
  apply pad2_shape; lia.
Qed.

Lemma strftime_time_shape (sod : Z) :
  0 <= sod <= 86399 -> matches_shape "dd:dd:dd" (strftime_time sod) = true.
Proof.
  intros Hs. unfold strftime_time.
  apply (matches_shape_app "dd" ":dd:dd").
  { apply pad2_shape. Z.to_euclidean_division_equations. lia. }
  apply (matches_shape_app ":" "dd:dd"); [reflexivity|].
  apply (matches_shape_app "dd" ":dd").
  { apply pad2_shape. Z.to_euclidean_division_equations. lia. }
  apply (matches_shape_app ":" "dd"); [reflexivity|].
  apply pad2_shape. Z.to_euclidean_division_equations. lia.
Qed.

(** Every timestamp pandas can hold prints as [YYYY-MM-DDTHH:MM:SS]. *)
Lemma strftime_shape (t : Timestamp) :
  in_bounds t -> matches_shape iso_shape (strftime t) = true.
Proof.
  unfold in_bounds, Timestamp_min, Timestamp_max. intros Ht.
  unfold strftime, iso_shape.
  apply (matches_shape_app "dddd-dd-dd" "Tdd:dd:dd").
  { apply strftime_date_shape. unfold ns_per_day, ns_per_second.
    Z.to_euclidean_division_equations. lia. }
  apply (matches_shape_app "T" "dd:dd:dd"); [reflexivity|].
  apply strftime_time_shape. unfold ns_per_day, ns_per_second.
  Z.to_euclidean_division_equations. lia.
Qed.

Lemma year4_shape (y : Z) :
  1000 <= y <= 9999 -> matches_shape "dddd" (str_int y) = true.
Proof.
  intros Hy.
  apply (all_from_spec (fun y => matches_shape "dddd" (str_int y))
           (Z.to_nat 9000) 1000);
    [vm_compute; reflexivity | lia].
Qed.

(** Month and day of every day number are a month and a day. *)
Lemma civil_month_day_bounds (days : Z) :
  1 <= snd (fst (civil_from_days days)) <= 12
  /\ 1 <= snd (civil_from_days days) <= 31.
Proof.
  unfold civil_from_days. cbv zeta. cbn [fst snd].
  set (z := days + 719468).
  set (era := z / 146097).
  set (doe := z - era * 146097).
  assert (Hdoe : 0 <= doe <= 146096).
  { subst doe era. Z.to_euclidean_division_equations. lia. }
  set (yoe := (doe - doe / 1460 + doe / 36524 - doe / 146096) / 365).
  assert (Hyoe : 0 <= yoe <= 399).
  { subst yoe. Z.to_euclidean_division_equations. lia. }
  set (doy := doe - (365 * yoe + yoe / 4 - yoe / 100)).
  assert (Hdoy : 0 <= doy <= 365).
  { subst doy yoe. Z.to_euclidean_division_equations. lia. }
  set (mp := (5 * doy + 2) / 153).
  assert (Hmp : 0 <= mp <= 11).
  { subst mp. Z.to_euclidean_division_equations. lia. }
  assert (Hday : 1 <= doy - (153 * mp + 2) / 5 + 1 <= 31).
  { subst mp. Z.to_euclidean_division_equations. lia. }
  split; [|exact Hday].
  destruct (mp <? 10) eqn:E; [apply Z.ltb_lt in E | apply Z.ltb_ge in E]; lia.
Qed.

(** A timestamp whose year has four digits prints as
    [YYYY-MM-DDTHH:MM:SS]. *)
Lemma strftime_shape_four_digit_year (t : Timestamp) :
  1000 <= year_of t <= 9999 -> matches_shape iso_shape (strftime t) = true.
Proof.
  unfold year_of. intros Hy.
  destruct (civil_month_day_bounds (t / ns_per_day)) as [Hm Hd].
  unfold strftime, iso_shape, strftime_date.
  destruct (civil_from_days (t / ns_per_day)) as [[y m] d].
  cbn [fst snd] in *.
  apply (matches_shape_app "dddd-dd-dd" "Tdd:dd:dd").
  { apply (matches_shape_app "dddd" "-dd-dd"); [exact (year4_shape y Hy)|].
    apply (matches_shape_app "-" "dd-dd"); [reflexivity|].
    apply (matches_shape_app "dd" "-dd"); [apply pad2_shape; lia|].
    apply (matches_shape_app "-" "dd"); [reflexivity|].
    apply pad2_shape; lia. }
  apply (matches_shape_app "T" "dd:dd:dd"); [reflexivity|].
  apply strftime_time_shape. unfold ns_per_day, ns_per_second.
  Z.to_euclidean_division_equations. lia.
Qed.

(** The nanosecond range lies within the years of four digits. *)
Lemma in_bounds_four_digit_year (t : Timestamp) :
  in_bounds t -> 1000 <= year_of t <= 9999.
Proof.
  unfold in_bounds, Timestamp_min, Timestamp_max, year_of. intros Ht.
  assert (Hd : -106752 <= t / ns_per_day <= 106751).
  { unfold ns_per_day, ns_per_second.
    Z.to_euclidean_division_equations. lia. }
  destruct (civil_from_days_bounds (t / ns_per_day) Hd) as (Hy & _). lia.
Qed.

(* ================================================================== *)
(** * The metadata of a forecast *)
(* ================================================================== *)

(** C1, as stated, fails twice.  The horizon is stored under the key
    [f]: the [meta] object of a successful forecast has no key [periods].
    And [start] and [end] print the year as it is: on a history of the
    year 1 the text is ["1-01-01T00:00:00"], which is not of the form
    YYYY-MM-DDTHH:MM:SS. *)
Lemma C1_counterexample :
  (exists data,
     forecast_time_series Demo.world (JObj Examples.forecast_arguments)
     = Ok data
     /\ mcp_endpoint Demo.world Examples.forecast_call
        = Ok {| body :=
                  Some (JObj [ ("jsonrpc", JStr "2.0");
                               ("result",
                                 JObj [ ("content",
                                          JArr [JObj [ ("type", JStr "text");
                                                       ("text",
                                                         JStr (Demo.dumps data)) ]]) ]);
                               ("id", JInt 1) ]);
                status := 200 |}
     /\ at_path data ["meta"]
        = Some (JObj [ ("f", JInt 2); ("n_history", JInt 3);
                       ("start", JStr "2021-01-01T00:00:00");
                       ("end", JStr "2021-01-03T00:00:00") ])
     /\ at_path data ["meta"; "periods"] = None)
  /\ (exists data,
        forecast_time_series Demo.world (JObj Examples.ancient_arguments)
        = Ok data
        /\ mcp_endpoint Demo.world Examples.ancient_call
           = Ok {| body :=
                     Some (JObj [ ("jsonrpc", JStr "2.0");
                                  ("result",
                                    JObj [ ("content",
                                             JArr [JObj [ ("type", JStr "text");
                                                          ("text",
                                                            JStr (Demo.dumps data)) ]]) ]);
                                  ("id", JInt 15) ]);
                   status := 200 |}
        /\ at_path data ["meta"; "start"] = Some (JStr "1-01-01T00:00:00")
        /\ at_path data ["meta"; "end"] = Some (JStr "1-01-03T00:00:00")
        /\ matches_shape iso_shape "1-01-01T00:00:00" = false).
Proof.
  split.
  - eexists.
    split; [vm_compute; reflexivity|].
    split; [vm_compute; reflexivity|].
    split; reflexivity.
  - eexists.
    split; [vm_compute; reflexivity|].
    split; [vm_compute; reflexivity|].
    split; [reflexivity|]. split; reflexivity.
Qed.

(** C1, amended: for a successful [tools/call] of [forecast_time_series]
    on a history [ds]/[y] and an integer horizon [p] (10 when [periods] is
    absent), the text of the result content is [json.dumps] of an object
    whose [meta] has [f] equal to [p] (and no key [periods]), [n_history]
    equal to the number of history rows, and [start] and [end] equal to the
    least and the greatest date of the history, not of the forecast,
    printed with [%Y-%m-%dT%H:%M:%S]: the text has the form
    YYYY-MM-DDTHH:MM:SS when the year of the date has four digits, as it
    has for every date of the nanosecond range. *)
Theorem C1_forecast_meta (W : World) (request : Request)
  (fields pfields afields : list (string * json)) (dsl yl : list json)
  (p : Z) (col : list (option Timestamp)) (rows : list ForecastRow)
  (tmin tmax : Timestamp) :
  request_get_json request = Ok (JObj fields) ->
  authorized W (request_authorization request) = true ->
  field_id fields <> JNull ->
  field_method fields = JStr "tools/call" ->
  field_params fields = JObj pfields ->
  param_name pfields = JStr "forecast_time_series" ->
  decode_arguments W (param_arguments pfields) = Some (JObj afields) ->
  dict_get afields "ds" = Some (JArr dsl) ->
  dict_get afields "y" = Some (JArr yl) ->
  length dsl = length yl ->
  arg_periods afields = JInt p ->
  to_datetime W dsl = Ok col ->
  prophet_predict W {| df_rows := length dsl; df_ds := col; df_y := yl |} p
  = Ok rows ->
  series_min col = Some tmin ->
  series_max col = Some tmax ->
  exists data meta,
    mcp_endpoint W request
    = Ok {| body :=
              Some (JObj [ ("jsonrpc", JStr "2.0");
                           ("result",
                             JObj [ ("content",
                                      JArr [JObj [ ("type", JStr "text");
                                                   ("text",
                                                     JStr (json_dumps W data)) ]]) ]);
                           ("id", field_id fields) ]);
            status := 200 |}
    /\ at_path data ["meta"] = Some (JObj meta)
    /\ dict_get meta "f" = Some (JInt p)
    /\ dict_get meta "periods" = None
    /\ dict_get meta "n_history" = Some (JInt (Z.of_nat (length dsl)))
    /\ dict_get meta "start" = Some (JStr (strftime tmin))
    /\ dict_get meta "end" = Some (JStr (strftime tmax))
    /\ at_path data ["forecast"] = Some (JArr (map forecast_record rows))
    /\ (In (Some tmin) col /\ forall t, In (Some t) col -> tmin <= t)
    /\ (In (Some tmax) col /\ forall t, In (Some t) col -> t <= tmax)
    /\ (1000 <= year_of tmin <= 9999 ->
        matches_shape iso_shape (strftime tmin) = true)
    /\ (1000 <= year_of tmax <= 9999 ->
        matches_shape iso_shape (strftime tmax) = true)
    /\ (in_bounds tmin -> 1000 <= year_of tmin <= 9999)
    /\ (in_bounds tmax -> 1000 <= year_of tmax <= 9999).
Proof.
  intros Hj Ha Hid Hm Hp Hn Hd Hds Hy Hlen Hper Hcol Hrows Hmin Hmax.
  assert (Hf : py_int W (arg_periods afields) = Ok p)
    by (rewrite Hper; reflexivity).
  pose proof (forecast_unfold W afields dsl yl p Hds Hy Hlen Hf) as Hfc.
  rewrite Hcol in Hfc. cbn [bind] in Hfc. rewrite Hrows, Hmin, Hmax in Hfc.
  cbn [scalar_strftime bind] in Hfc.
  eexists. eexists.
  split.
  { rewrite (endpoint_tool_call W request fields Hj Ha Hid Hm), Hp.
    rewrite tool_call_unfold, Hd, Hn. cbn [eq_str String.eqb].
    rewrite Hfc. reflexivity. }
  split; [reflexivity|].
  do 6 (split; [reflexivity|]).
  split; [exact (series_min_spec col tmin Hmin)|].
  split; [exact (series_max_spec col tmax Hmax)|].
  split; [apply strftime_shape_four_digit_year|].
  split; [apply strftime_shape_four_digit_year|].
  split; apply in_bounds_four_digit_year.
Qed.

Lemma C1_witness :
  exists data meta,
    mcp_endpoint Demo.world Examples.forecast_call
    = Ok {| body :=
              Some (JObj [ ("jsonrpc", JStr "2.0");
                           ("result",
                             JObj [ ("content",
                                      JArr [JObj [ ("type", JStr "text");
                                                   ("text",
                                                     JStr (Demo.dumps data)) ]]) ]);
                           ("id", JInt 1) ]);
            status := 200 |}
    /\ at_path data ["meta"] = Some (JObj meta)
    /\ dict_get meta "f" = Some (JInt 2)
    /\ dict_get meta "periods" = None
    /\ dict_get meta "n_history" = Some (JInt 3)
    /\ dict_get meta "start" = Some (JStr "2021-01-01T00:00:00")
    /\ dict_get meta "end" = Some (JStr "2021-01-03T00:00:00")
    /\ matches_shape iso_shape "2021-01-01T00:00:00" = true
    /\ matches_shape iso_shape "2021-01-03T00:00:00" = true.
Proof.
  assert (Hid : field_id
                  [ ("jsonrpc", JStr "2.0"); ("id", JInt 1);
                    ("method", JStr "tools/call");
                    ("params", JObj Examples.forecast_params) ] <> JNull)
    by discriminate.
  destruct (C1_forecast_meta Demo.world Examples.forecast_call
              [ ("jsonrpc", JStr "2.0"); ("id", JInt 1);
                ("method", JStr "tools/call");
                ("params", JObj Examples.forecast_params) ]
              Examples.forecast_params Examples.forecast_arguments
              [JStr "2021-01-01"; JStr "2021-01-02"; JStr "2021-01-03"]
              [JInt 1; JInt 2; JInt 3] 2
              [ Some 1609459200000000000; Some 1609545600000000000;
                Some 1609632000000000000 ]
              (map Demo.flat_row
                 [ 1609459200000000000; 1609545600000000000;
                   1609632000000000000; 1609718400000000000;
                   1609804800000000000 ])
              1609459200000000000 1609632000000000000
              eq_refl eq_refl Hid eq_refl eq_refl eq_refl eq_refl eq_refl
              eq_refl eq_refl eq_refl eq_refl eq_refl eq_refl eq_refl)
    as (data & meta & H1 & H2 & H3 & H4 & H5 & H6 & H7 & _ & _ & _
        & H11 & H12 & _).
  exists data, meta.
  split; [exact H1|]. split; [exact H2|]. split; [exact H3|].
  split; [exact H4|]. split; [exact H5|]. split; [exact H6|].
  split; [exact H7|].
  split; [apply H11 | apply H12]; unfold year_of; vm_compute;
    split; discriminate.
Defined.

(* ================================================================== *)
(** * The view on every request *)
(* ================================================================== *)

(** On a body that is an object the view passes the bearer check and
    dispatches, or fails it and answers 401 with code -32000. *)
Lemma endpoint_object_cases (W : World) (request : Request)
  (fields : list (string * json)) :
  request_get_json request = Ok (JObj fields) ->
  (authorized W (request_authorization request) = true
   /\ mcp_endpoint W request
      = Ok (dispatch W (field_method fields) (field_params fields)
              (field_id fields)))
  \/ (authorized W (request_authorization request) = false
      /\ exists message,
           mcp_endpoint W request
           = Ok (respond (error_envelope (-32000) message (field_id fields))
                   401)).
Proof.
  intros Hj.
  destruct (authorized W (request_authorization request)) eqn:Ha.
  - left. split; [reflexivity|]. exact (endpoint_authorized W request fields Hj Ha).
  - right. split; [reflexivity|].
    destruct (header_rejected (request_authorization request)) eqn:Hr.
    + eexists. exact (endpoint_header_rejected W request fields Hj Hr).
    + destruct (request_authorization request) as [h|] eqn:Hh; [|discriminate].
      assert (Hp : startswith h "Bearer " = true).
      { unfold header_rejected in Hr. apply orb_false_iff in Hr as [_ Hr].
        now apply negb_false_iff in Hr. }
      destruct (bearer_has_token h Hp) as [token Ht].
      assert (Hs : getenv_MCP_TOKEN W <> Some token).
      { intros Hs. unfold authorized, bearer_token in Ha.
        rewrite Hp, Ht, Hs, String.eqb_refl in Ha. discriminate. }
      eexists.
      exact (endpoint_token_mismatch W request fields h token Hj Hh Hp Ht Hs).
Qed.

(** Every answer of the view is the empty 204, a result envelope at 200,
    or an error envelope whose code and status are one of three pairs. *)
Lemma endpoint_response_cases (W : World) (request : Request)
  (resp : Response) :
  mcp_endpoint W request = Ok resp ->
  resp = no_content
  \/ (exists result id, resp = respond (result_envelope result id) 200)
  \/ (exists code message id st,
        resp = respond (error_envelope code message id) st
        /\ ((code = -32700 /\ st = 200 /\ id = JNull)
            \/ (code = -32000 /\ st = 401)
            \/ (code = -32603 /\ st = 200))).
Proof.
  intros H.
  destruct (request_get_json request) as [data|e] eqn:Hj.
  - destruct data as [| | | | | |fields];
      try (unfold mcp_endpoint in H; rewrite Hj in H; discriminate H).
    destruct (endpoint_object_cases W request fields Hj)
      as [[_ Hd] | [_ [message Hd]]]; rewrite Hd in H; injection H as <-.
    + destruct (dispatch_cases W (field_method fields) (field_params fields)
                  (field_id fields))
        as [[_ ->] | [_ [[result ->] | [message ->]]]].
      * left. reflexivity.
      * right. left. eauto.
      * right. right. do 4 eexists. split; [reflexivity|]. auto.
    + right. right. do 4 eexists. split; [reflexivity|]. auto.
  - unfold mcp_endpoint in H. rewrite Hj in H. injection H as <-.
    right. right. do 4 eexists. split; [reflexivity|]. auto.
Qed.

(** X1: the view lets an exception escape exactly when the body is valid
    JSON that is not an object; the exception is the [AttributeError] of
    [data.get].  On an object, and on a body that does not parse, it always
    returns a response. *)
Theorem endpoint_raises_iff_body_not_object (W : World) (request : Request)
  (e : exn) :
  mcp_endpoint W request = Raise e
  <-> exists data,
        request_get_json request = Ok data
        /\ (forall fields, data <> JObj fields)
        /\ e = AttributeError data "get".
Proof.
  split.
  - intros H. destruct (request_get_json request) as [data|e'] eqn:Hj.
    + exists data. split; [reflexivity|].
      destruct data as [| | | | | |fields];
        try (unfold mcp_endpoint in H; rewrite Hj in H; injection H as <-;
             split; [discriminate|reflexivity]).
      destruct (endpoint_object_cases W request fields Hj)
        as [[_ Hd] | [_ [message Hd]]]; rewrite Hd in H; discriminate.
    + unfold mcp_endpoint in H. rewrite Hj in H. discriminate.
  - intros (data & Hj & Hno & ->). unfold mcp_endpoint. rewrite Hj.
    destruct data as [| | | | | |fields]; try reflexivity.
    exfalso. exact (Hno fields eq_refl).
Qed.

Lemma endpoint_raises_witness :
  mcp_endpoint Demo.world Examples.list_body
  = Raise (Exn "AttributeError" "'list' object has no attribute 'get'").
Proof.
  apply (proj2 (endpoint_raises_iff_body_not_object Demo.world
                  Examples.list_body
                  (Exn "AttributeError"
                     "'list' object has no attribute 'get'"))).
  exists (JArr [JInt 1; JInt 2]).
  split; [reflexivity|]. split; [discriminate|reflexivity].
Defined.

(** X2: the status of a response is 200, 204 or 401, and the body is empty
    exactly when it is 204. *)
Theorem endpoint_status_and_body (W : World) (request : Request)
  (resp : Response) :
  mcp_endpoint W request = Ok resp ->
  (status resp = 200 \/ status resp = 204 \/ status resp = 401)
  /\ (body resp = None <-> status resp = 204).
Proof.
  intros H.
  destruct (endpoint_response_cases W request resp H)
    as [-> | [(result & id & ->) | (code & message & id & st & -> & Hc)]].
  - split; [auto|]. split; reflexivity.
  - split; [auto|]. split; discriminate.
  - assert (Hst : st = 200 \/ st = 401)
      by (destruct Hc as [(_ & -> & _) | [(_ & ->) | (_ & ->)]]; auto).
    split; [destruct Hst; auto|].
    simpl. split; [discriminate|]. intros ->. destruct Hst; discriminate.
Qed.

Lemma endpoint_status_witness :
  (status {| body := None; status := 204 |} = 200 \/ status {| body := None; status := 204 |} = 204
   \/ status {| body := None; status := 204 |} = 401)
  /\ (body {| body := None; status := 204 |} = None <-> status {| body := None; status := 204 |} = 204).
Proof.
  apply (endpoint_status_and_body Demo.world Examples.notification).
  reflexivity.
Defined.

(** X3: every body the view sends is a JSON-RPC envelope: an object with
    [jsonrpc] "2.0", an [id], and exactly one of [result] and [error]; an
    error is a code and a message, and its code goes with the status:
    -32700 at 200 with a null id, -32000 at 401, -32603 at 200. *)
Theorem endpoint_body_is_envelope (W : World) (request : Request)
  (resp : Response) (j : json) :
  mcp_endpoint W request = Ok resp ->
  body resp = Some j ->
  exists envelope,
    j = JObj envelope
    /\ dict_get envelope "jsonrpc" = Some (JStr "2.0")
    /\ has_key envelope "id" = true
    /\ xorb (has_key envelope "result") (has_key envelope "error") = true
    /\ (has_key envelope "error" = true ->
        exists code message,
          dict_get envelope "error"
          = Some (JObj [("code", JInt code); ("message", JStr message)])
          /\ ((code = -32700 /\ status resp = 200
               /\ dict_get envelope "id" = Some JNull)
              \/ (code = -32000 /\ status resp = 401)
              \/ (code = -32603 /\ status resp = 200))).
Proof.
  intros H Hb.
  destruct (endpoint_response_cases W request resp H)
    as [-> | [(result & id & ->) | (code & message & id & st & -> & Hc)]].
  - discriminate.
  - injection Hb as <-. eexists. split; [reflexivity|].
    repeat (split; [reflexivity|]). discriminate.
  - injection Hb as <-. eexists. split; [reflexivity|].
    repeat (split; [reflexivity|]). intros _.
    exists code, message. split; [reflexivity|]. simpl.
    destruct Hc as [(-> & -> & ->) | [(-> & ->) | (-> & ->)]]; auto.
Qed.

Lemma endpoint_body_witness :
  exists envelope,
    JObj [ ("jsonrpc", JStr "2.0");
           ("error",
             JObj [ ("code", JInt (-32603));
                    ("message",
                      JStr "Internal error: Method not found: ping") ]);
           ("id", JStr "a1") ] = JObj envelope
    /\ dict_get envelope "jsonrpc" = Some (JStr "2.0")
    /\ has_key envelope "id" = true
    /\ xorb (has_key envelope "result") (has_key envelope "error") = true.
Proof.
  destruct (endpoint_body_is_envelope Demo.world Examples.ping
              (respond
                 (error_envelope (-32603)
                    "Internal error: Method not found: ping" (JStr "a1")) 200)
              (error_envelope (-32603)
                 "Internal error: Method not found: ping" (JStr "a1"))
              eq_refl eq_refl)
    as (envelope & H1 & H2 & H3 & H4 & _).
  exists envelope. auto.
Defined.

(** X4: on a body that is an object, the answer is 401 exactly when the
    header does not carry the configured secret as its token. *)
Theorem unauthorized_iff_401 (W : World) (request : Request)
  (fields : list (string * json)) (resp : Response) :
  request_get_json request = Ok (JObj fields) ->
  mcp_endpoint W request = Ok resp ->
  (status resp = 401
   <-> authorized W (request_authorization request) = false).
Proof.
  intros Hj H.
  destruct (endpoint_object_cases W request fields Hj)
    as [[Ha Hd] | [Ha [message Hd]]]; rewrite Hd in H; injection H as <-;
    rewrite Ha.
  - split; [|discriminate].
    destruct (dispatch_cases W (field_method fields) (field_params fields)
                (field_id fields))
      as [[_ ->] | [_ [[result ->] | [message ->]]]]; discriminate.
  - split; reflexivity.
Qed.

Lemma unauthorized_iff_401_witness :
  status ({| body :=
               Some (JObj [ ("jsonrpc", JStr "2.0");
                            ("error",
                              JObj [ ("code", JInt (-32000));
                                     ("message",
                                       JStr "Unauthorized: Invalid MCP Auth token") ]);
                            ("id", JStr "a1") ]);
             status := 401 |}) = 401
  <-> authorized Demo.world (Some "Bearer guess") = false.
Proof.
  apply (unauthorized_iff_401 Demo.world Examples.ping_wrong_token
           Examples.ping_fields); reflexivity.
Defined.

(* ================================================================== *)
(** * Secrets and headers at the edges *)
(* ================================================================== *)

Lemma authorized_secret (W : World) (authorization : option string) :
  authorized W authorization = true ->
  exists secret,
    getenv_MCP_TOKEN W = Some secret /\ has_space secret = false.
Proof.
  intros Ha. destruct (authorized_inv W authorization Ha)
    as (h & token & _ & _ & Ht & Hs).
  exists token. split; [exact Hs|].
  apply (extract_token_no_space h). unfold extract_token. now rewrite Ht.
Qed.

(** X5: when [MCP_TOKEN] is not set, or is set to a value that holds a
    space, no header passes the check: every request whose body is an
    object is answered 401 with code -32000, whatever its header. *)
Theorem unusable_secret_rejects_every_request (W : World) (request : Request)
  (fields : list (string * json)) :
  request_get_json request = Ok (JObj fields) ->
  (getenv_MCP_TOKEN W = None
   \/ exists secret,
        getenv_MCP_TOKEN W = Some secret /\ has_space secret = true) ->
  exists message,
    mcp_endpoint W request
    = Ok ({| body :=
               Some (JObj [ ("jsonrpc", JStr "2.0");
                            ("error",
                              JObj [ ("code", JInt (-32000));
                                     ("message",
                                       JStr message) ]);
                            ("id", field_id fields) ]);
             status := 401 |}).
Proof.
  intros Hj Hbad.
  destruct (endpoint_object_cases W request fields Hj)
    as [[Ha _] | [_ Hd]]; [|exact Hd].
  exfalso. destruct (authorized_secret W _ Ha) as (secret & Hs & Hsp).
  destruct Hbad as [Hnone | (secret' & Hs' & Hsp')]; congruence.
Qed.

Lemma unusable_secret_witness :
  exists message,
    mcp_endpoint (Demo.world_with_token (Some "two words"))
      (Examples.request_of (JObj Examples.ping_fields)
         (Some "Bearer two words"))
    = Ok ({| body :=
               Some (JObj [ ("jsonrpc", JStr "2.0");
                            ("error",
                              JObj [ ("code", JInt (-32000));
                                     ("message",
                                       JStr message) ]);
                            ("id", JStr "a1") ]);
             status := 401 |}).
Proof.
  apply (unusable_secret_rejects_every_request
           (Demo.world_with_token (Some "two words"))
           (Examples.request_of (JObj Examples.ping_fields)
              (Some "Bearer two words"))
           Examples.ping_fields).
  - reflexivity.
  - right. exists "two words". split; reflexivity.
Defined.

(** X6: the header [Bearer ] and every header that starts with [Bearer]
    and two spaces carry the empty token.  They pass the check when the
    configured secret is the empty string, and only then; otherwise the
    answer is 401 "Invalid MCP Auth token". *)
Theorem empty_token_header (W : World) (request : Request)
  (fields : list (string * json)) (h : string) :
  request_get_json request = Ok (JObj fields) ->
  request_authorization request = Some h ->
  (h = "Bearer " \/ exists rest, h = "Bearer  " ++ rest) ->
  (getenv_MCP_TOKEN W = Some "" ->
   mcp_endpoint W request
   = Ok (dispatch W (field_method fields) (field_params fields)
           (field_id fields)))
  /\ (getenv_MCP_TOKEN W <> Some "" ->
      mcp_endpoint W request
      = Ok ({| body :=
                 Some (JObj [ ("jsonrpc", JStr "2.0");
                              ("error",
                                JObj [ ("code", JInt (-32000));
                                       ("message",
                                         JStr "Unauthorized: Invalid MCP Auth token") ]);
                              ("id", field_id fields) ]);
               status := 401 |})).
Proof.
  intros Hj Hh Hform.
  assert (Hp : startswith h "Bearer " = true).
  { destruct Hform as [-> | [rest ->]]; [reflexivity|].
    exact (startswith_app "Bearer " (" " ++ rest)). }
  assert (Ht : nth_error (split_space h) 1 = Some "").
  { destruct Hform as [-> | [rest ->]]; [reflexivity|].
    change ("Bearer  " ++ rest)
      with ("Bearer" ++ String " "%char ("" ++ String " "%char rest)).
    rewrite split_space_segment by reflexivity.
    rewrite split_space_segment by reflexivity. reflexivity. }
  split.
  - intros Hs. apply (endpoint_authorized W request fields Hj).
    unfold authorized, bearer_token. rewrite Hh, Hp, Ht, Hs. reflexivity.
  - intros Hs.
    exact (endpoint_token_mismatch W request fields h "" Hj Hh Hp Ht Hs).
Qed.

Lemma empty_token_header_witness :
  mcp_endpoint (Demo.world_with_token (Some "")) Examples.ping_bare_bearer
  = Ok (dispatch (Demo.world_with_token (Some "")) (JStr "ping") (JObj [])
          (JStr "a1"))
  /\ mcp_endpoint Demo.world Examples.ping_two_spaces
     = Ok ({| body :=
                Some (JObj [ ("jsonrpc", JStr "2.0");
                             ("error",
                               JObj [ ("code", JInt (-32000));
                                      ("message",
                                        JStr "Unauthorized: Invalid MCP Auth token") ]);
                             ("id", JStr "a1") ]);
              status := 401 |}).
Proof.
  split.
  - apply (proj1 (empty_token_header (Demo.world_with_token (Some ""))
                    Examples.ping_bare_bearer Examples.ping_fields "Bearer "
                    eq_refl eq_refl (or_introl eq_refl))).
    reflexivity.
  - apply (proj2 (empty_token_header Demo.world Examples.ping_two_spaces
                    Examples.ping_fields "Bearer  s3cret" eq_refl eq_refl
                    (or_intror (ex_intro _ "s3cret" eq_refl)))).
    discriminate.
Defined.

(* ================================================================== *)
(** * The router and the fixed methods *)
(* ================================================================== *)

(** X7: the router raises in two ways only: the method is [tools/call]
    and the tool handler raised, or the method is none of the three and the
    exception is the "Method not found" [ValueError]. *)
Theorem handle_request_raises (W : World) (method params : json) (e : exn) :
  handle_request W method params = Raise e ->
  (method = JStr "tools/call" /\ handle_tool_call W params = Raise e)
  \/ (method <> JStr "initialize" /\ method <> JStr "tools/list"
      /\ method <> JStr "tools/call"
      /\ e = ValueError ("Method not found: " ++ str W method)).
Proof.
  unfold handle_request. intros H.
  destruct (eq_str method "initialize") eqn:E1; [discriminate|].
  destruct (eq_str method "tools/list") eqn:E2; [discriminate|].
  destruct (eq_str method "tools/call") eqn:E3.
  - left. split; [|exact H].
    destruct method; try discriminate. simpl in E3.
    apply String.eqb_eq in E3. now subst.
  - right. injection H as <-.
    repeat split; intros ->; discriminate.
Qed.

Lemma handle_request_raises_witness :
  JInt 5 <> JStr "tools/call"
  /\ ValueError "Method not found: 5"
     = ValueError ("Method not found: " ++ str Demo.world (JInt 5)).
Proof.
  destruct (handle_request_raises Demo.world (JInt 5) JNull
              (ValueError "Method not found: 5") eq_refl)
    as [[H _] | (_ & _ & H3 & H)].
  - discriminate H.
  - split; [exact H3|exact H].
Defined.

(** X8: [initialize] and [tools/list] never look at the params: an
    authorised request with an id gets the fixed descriptor, or the
    registry, as a result at 200 even when its params are no object. *)
Theorem fixed_methods_ignore_params (W : World) (request : Request)
  (fields : list (string * json)) :
  request_get_json request = Ok (JObj fields) ->
  authorized W (request_authorization request) = true ->
  field_id fields <> JNull ->
  (field_method fields = JStr "initialize" ->
   mcp_endpoint W request
   = Ok ({| body :=
              Some (JObj [ ("jsonrpc", JStr "2.0");
                           ("result",
                             handle_initialize);
                           ("id", field_id fields) ]);
            status := 200 |}))
  /\ (field_method fields = JStr "tools/list" ->
      mcp_endpoint W request
      = Ok ({| body :=
                 Some (JObj [ ("jsonrpc", JStr "2.0");
                              ("result",
                                handle_tools_list);
                              ("id", field_id fields) ]);
               status := 200 |})).
Proof.
  intros Hj Ha Hid.
  assert (Hn : is_None (field_id fields) = false)
    by (destruct (field_id fields); simpl; congruence).
  rewrite (endpoint_authorized W request fields Hj Ha).
  unfold dispatch. rewrite Hn.
  split; intros ->; reflexivity.
Qed.

Lemma fixed_methods_witness :
  mcp_endpoint Demo.world Examples.initialize_call
  = Ok ({| body :=
             Some (JObj [ ("jsonrpc", JStr "2.0");
                          ("result",
                            handle_initialize);
                          ("id", JInt 7) ]);
           status := 200 |})
  /\ mcp_endpoint Demo.world Examples.list_call
     = Ok ({| body :=
                Some (JObj [ ("jsonrpc", JStr "2.0");
                             ("result",
                               handle_tools_list);
                             ("id", JInt 8) ]);
              status := 200 |}).
Proof.
  split.
  - apply (fixed_methods_ignore_params Demo.world Examples.initialize_call
             Examples.initialize_fields); try reflexivity; discriminate.
  - apply (fixed_methods_ignore_params Demo.world Examples.list_call
             Examples.list_fields); try reflexivity; discriminate.
Defined.

(* ================================================================== *)
(** * Tool calls that go wrong *)
(* ================================================================== *)

(** X9: an authorised [tools/call] with an id is always answered 200 with
    a [result], never with a protocol [error], whatever the params are and
    whatever the handler does. *)
Theorem tools_call_always_result (W : World) (request : Request)
  (fields : list (string * json)) :
  request_get_json request = Ok (JObj fields) ->
  authorized W (request_authorization request) = true ->
  field_id fields <> JNull ->
  field_method fields = JStr "tools/call" ->
  exists result,
    mcp_endpoint W request
    = Ok ({| body :=
               Some (JObj [ ("jsonrpc", JStr "2.0");
                            ("result",
                              result);
                            ("id", field_id fields) ]);
             status := 200 |})
    /\ (forall e, handle_tool_call W (field_params fields) = Raise e ->
        result = JObj [ ("isError", JBool true);
                        ("content",
                          JArr [JObj [ ("type", JStr "text");
                                       ("text",
                                         JStr ("Internal tool error: "
                                                 ++ exn_str e)) ]]) ])
    /\ (forall r, handle_tool_call W (field_params fields) = Ok r ->
        result = r).
Proof.
  intros Hj Ha Hid Hm.
  rewrite (endpoint_tool_call W request fields Hj Ha Hid Hm).
  eexists. split; [reflexivity|].
  split; intros x Hx; rewrite Hx; reflexivity.
Qed.

Lemma tools_call_always_result_witness :
  exists result,
    mcp_endpoint Demo.world Examples.nope_call
    = Ok ({| body :=
               Some (JObj [ ("jsonrpc", JStr "2.0");
                            ("result",
                              result);
                            ("id", JInt 3) ]);
             status := 200 |}).
Proof.
  destruct (tools_call_always_result Demo.world Examples.nope_call
              (Examples.call_fields 3 (JObj Examples.nope_params))
              eq_refl eq_refl)
    as (result & H & _); try reflexivity; try discriminate.
  exists result. exact H.
Defined.

(** X10: when the params of a [tools/call] are no object (a list, a
    string, a number, or an explicit [null]) the handler raises the
    [AttributeError] of [params.get], and the view reports it as the tool
    result "Internal tool error: '<type>' object has no attribute 'get'". *)
Theorem tool_call_params_not_object (W : World) (request : Request)
  (fields : list (string * json)) :
  request_get_json request = Ok (JObj fields) ->
  authorized W (request_authorization request) = true ->
  field_id fields <> JNull ->
  field_method fields = JStr "tools/call" ->
  (forall pfields, field_params fields <> JObj pfields) ->
  handle_tool_call W (field_params fields)
  = Raise (AttributeError (field_params fields) "get")
  /\ mcp_endpoint W request
     = Ok ({| body :=
                Some (JObj [ ("jsonrpc", JStr "2.0");
                             ("result",
                               JObj [ ("isError", JBool true);
                                      ("content",
                                        JArr [JObj [ ("type", JStr "text");
                                                     ("text",
                                                       JStr ("Internal tool error: '"
                                                               ++ type_name (field_params fields)
                                                               ++ "' object has no attribute 'get'")) ]]) ]);
                             ("id", field_id fields) ]);
              status := 200 |}).
Proof.
  intros Hj Ha Hid Hm Hno.
  assert (Hr : handle_tool_call W (field_params fields)
               = Raise (AttributeError (field_params fields) "get")).
  { destruct (field_params fields) as [| | | | | |pfields]; try reflexivity.
    exfalso. exact (Hno pfields eq_refl). }
  split; [exact Hr|].
  rewrite (endpoint_tool_call W request fields Hj Ha Hid Hm), Hr.
  reflexivity.
Qed.

Lemma tool_call_params_not_object_witness :
  handle_tool_call Demo.world JNull = Raise (AttributeError JNull "get")
  /\ mcp_endpoint Demo.world Examples.null_params_call
     = Ok ({| body :=
                Some (JObj [ ("jsonrpc", JStr "2.0");
                             ("result",
                               JObj [ ("isError", JBool true);
                                      ("content",
                                        JArr [JObj [ ("type", JStr "text");
                                                     ("text",
                                                       JStr "Internal tool error: 'NoneType' object has no attribute 'get'") ]]) ]);
                             ("id", JInt 9) ]);
              status := 200 |}).
Proof.
  apply (tool_call_params_not_object Demo.world Examples.null_params_call
           (Examples.call_fields 9 JNull));
    try reflexivity; discriminate.
Defined.

(** X11: an argument string that [json.loads] refuses is reported as
    "Invalid arguments: expected object or JSON string.", whatever the tool
    name is, the forecast tool included; the tool is not run. *)
Theorem invalid_argument_string (W : World) (request : Request)
  (fields pfields : list (string * json)) (s : string) (e : exn) :
  request_get_json request = Ok (JObj fields) ->
  authorized W (request_authorization request) = true ->
  field_id fields <> JNull ->
  field_method fields = JStr "tools/call" ->
  field_params fields = JObj pfields ->
  param_arguments pfields = JStr s ->
  json_loads W s = Raise e ->
  handle_tool_call W (JObj pfields)
  = Ok (JObj [ ("isError", JBool true);
               ("content",
                 JArr [JObj [ ("type", JStr "text");
                              ("text",
                                JStr "Invalid arguments: expected object or JSON string.") ]]) ])
  /\ mcp_endpoint W request
     = Ok ({| body :=
                Some (JObj [ ("jsonrpc", JStr "2.0");
                             ("result",
                               JObj [ ("isError", JBool true);
                                      ("content",
                                        JArr [JObj [ ("type", JStr "text");
                                                     ("text",
                                                       JStr "Invalid arguments: expected object or JSON string.") ]]) ]);
                             ("id", field_id fields) ]);
              status := 200 |}).
Proof.
  intros Hj Ha Hid Hm Hp Harg He.
  assert (Hc : handle_tool_call W (JObj pfields)
               = Ok (tool_error
                       "Invalid arguments: expected object or JSON string.")).
  { rewrite tool_call_unfold, Harg. unfold decode_arguments.
    rewrite He. reflexivity. }
  split; [exact Hc|].
  rewrite (endpoint_tool_call W request fields Hj Ha Hid Hm), Hp, Hc.
  reflexivity.
Qed.

Lemma invalid_argument_string_witness :
  handle_tool_call Demo.world (JObj Examples.forecast_bad_string)
  = Ok (JObj [ ("isError", JBool true);
               ("content",
                 JArr [JObj [ ("type", JStr "text");
                              ("text",
                                JStr "Invalid arguments: expected object or JSON string.") ]]) ])
  /\ mcp_endpoint Demo.world Examples.forecast_bad_string_call
     = Ok ({| body :=
                Some (JObj [ ("jsonrpc", JStr "2.0");
                             ("result",
                               JObj [ ("isError", JBool true);
                                      ("content",
                                        JArr [JObj [ ("type", JStr "text");
                                                     ("text",
                                                       JStr "Invalid arguments: expected object or JSON string.") ]]) ]);
                             ("id", JInt 10) ]);
              status := 200 |}).
Proof.
  apply (invalid_argument_string Demo.world
           Examples.forecast_bad_string_call
           (Examples.call_fields 10 (JObj Examples.forecast_bad_string))
           Examples.forecast_bad_string "{"
           (Exn "JSONDecodeError" "Cannot decode: {"));
    try reflexivity; discriminate.
Defined.

(** X12: arguments sent as a JSON text are the same call as the decoded
    value sent directly, provided the decoded value is not itself a string
    (a string would be decoded once more). *)
Theorem string_arguments_same_as_decoded (W : World)
  (pfields pfields' : list (string * json)) (s : string) (a : json) :
  param_name pfields = param_name pfields' ->
  param_arguments pfields = JStr s ->
  param_arguments pfields' = a ->
  json_loads W s = Ok a ->
  (forall s', a <> JStr s') ->
  handle_tool_call W (JObj pfields) = handle_tool_call W (JObj pfields').
Proof.
  intros Hname Hs Ha Hload Hnot.
  rewrite !tool_call_unfold, Hname, Hs, Ha.
  assert (H1 : decode_arguments W (JStr s) = Some a)
    by (unfold decode_arguments; now rewrite Hload).
  assert (H2 : decode_arguments W a = Some a).
  { destruct a; try reflexivity. exfalso. exact (Hnot s0 eq_refl). }
  rewrite H1, H2. reflexivity.
Qed.

Lemma string_arguments_witness :
  handle_tool_call Demo.world (JObj Examples.nope_string_params)
  = handle_tool_call Demo.world (JObj Examples.nope_params).
Proof.
  apply (string_arguments_same_as_decoded Demo.world
           Examples.nope_string_params Examples.nope_params "{}" (JObj []));
    try reflexivity; discriminate.
Defined.

(* ================================================================== *)
(** * The forecast tool at its edges *)
(* ================================================================== *)

(** An authorised call of the forecast tool: the output of the adapter is
    serialized into the text of the result, an exception of the adapter
    becomes the "Internal tool error" result. *)
Lemma endpoint_forecast_call (W : World) (request : Request)
  (fields pfields : list (string * json)) (arguments : json) :
  request_get_json request = Ok (JObj fields) ->
  authorized W (request_authorization request) = true ->
  field_id fields <> JNull ->
  field_method fields = JStr "tools/call" ->
  field_params fields = JObj pfields ->
  param_name pfields = JStr "forecast_time_series" ->
  decode_arguments W (param_arguments pfields) = Some arguments ->
  mcp_endpoint W request
  = Ok (respond
          (result_envelope
             (match forecast_time_series W arguments with
              | Ok data => JObj [("content", text_content (json_dumps W data))]
              | Raise e => tool_error ("Internal tool error: " ++ exn_str e)
              end)
             (field_id fields)) 200).
Proof.
  intros Hj Ha Hid Hm Hp Hn Hd.
  rewrite (endpoint_tool_call W request fields Hj Ha Hid Hm), Hp.
  rewrite tool_call_unfold, Hd, Hn. cbn [eq_str String.eqb].
  destruct (forecast_time_series W arguments); reflexivity.
Qed.

(** X13: when fitting or predicting fails, the adapter returns the object
    [{"error": <message>}], and the call is answered like a success: the
    serialized object is the text of a result that has no [isError] key. *)
Theorem prophet_failure_is_plain_output (W : World) (request : Request)
  (fields pfields afields : list (string * json)) (dsl yl : list json)
  (f : Z) (col : list (option Timestamp)) (e : exn) :
  request_get_json request = Ok (JObj fields) ->
  authorized W (request_authorization request) = true ->
  field_id fields <> JNull ->
  field_method fields = JStr "tools/call" ->
  field_params fields = JObj pfields ->
  param_name pfields = JStr "forecast_time_series" ->
  decode_arguments W (param_arguments pfields) = Some (JObj afields) ->
  dict_get afields "ds" = Some (JArr dsl) ->
  dict_get afields "y" = Some (JArr yl) ->
  length dsl = length yl ->
  py_int W (arg_periods afields) = Ok f ->
  to_datetime W dsl = Ok col ->
  prophet_predict W {| df_rows := length dsl; df_ds := col; df_y := yl |} f
  = Raise e ->
  forecast_time_series W (JObj afields)
  = Ok (JObj [("error", JStr (exn_str e))])
  /\ exists result,
       mcp_endpoint W request
       = Ok ({| body :=
                  Some (JObj [ ("jsonrpc", JStr "2.0");
                               ("result",
                                 JObj result);
                               ("id", field_id fields) ]);
                status := 200 |})
       /\ result
          = [ ("content",
                JArr [JObj [ ("type", JStr "text");
                             ("text",
                               JStr (json_dumps W
                                       (JObj [("error", JStr (exn_str e))]))) ]]) ]
       /\ has_key result "isError" = false.
Proof.
  intros Hj Ha Hid Hm Hp Hn Hd Hds Hy Hlen Hf Hcol Hfail.
  assert (Hfc : forecast_time_series W (JObj afields)
                = Ok (JObj [("error", JStr (exn_str e))])).
  { rewrite (forecast_unfold W afields dsl yl f Hds Hy Hlen Hf), Hcol.
    cbn [bind]. rewrite Hfail. reflexivity. }
  split; [exact Hfc|].
  eexists. split; [|split; reflexivity].
  rewrite (endpoint_forecast_call W request fields pfields (JObj afields)
             Hj Ha Hid Hm Hp Hn Hd), Hfc.
  reflexivity.
Qed.

Lemma prophet_failure_witness :
  forecast_time_series Demo.world (JObj Examples.short_arguments)
  = Ok (JObj [("error", JStr "Dataframe has less than 2 non-NaN rows")])
  /\ exists result,
       mcp_endpoint Demo.world Examples.short_call
       = Ok ({| body :=
                  Some (JObj [ ("jsonrpc", JStr "2.0");
                               ("result",
                                 JObj result);
                               ("id", JInt 13) ]);
                status := 200 |})
       /\ result
          = [ ("content",
                JArr [JObj [ ("type", JStr "text");
                             ("text",
                               JStr (Demo.dumps
                                       (JObj [("error",
                                               JStr "Dataframe has less than 2 non-NaN rows")]))) ]]) ]
       /\ has_key result "isError" = false.
Proof.
  assert (Hid : field_id (Examples.call_fields 13 (JObj Examples.short_params))
                <> JNull) by discriminate.
  exact (prophet_failure_is_plain_output Demo.world Examples.short_call
           (Examples.call_fields 13 (JObj Examples.short_params))
           Examples.short_params Examples.short_arguments
           [JStr "2021-01-01"] [JInt 1] 10 [Some 1609459200000000000]
           (ValueError "Dataframe has less than 2 non-NaN rows")
           eq_refl eq_refl Hid eq_refl eq_refl eq_refl eq_refl eq_refl eq_refl
           eq_refl eq_refl eq_refl eq_refl).
Defined.

(** X14: arguments that are no object once decoded (a list, a number,
    [null], or the value of a JSON text that is none) make the adapter
    raise the [AttributeError] of [arguments.get]; the call is answered
    with "Internal tool error: '<type>' object has no attribute 'get'". *)
Theorem forecast_arguments_not_object (W : World) (request : Request)
  (fields pfields : list (string * json)) (arguments : json) :
  request_get_json request = Ok (JObj fields) ->
  authorized W (request_authorization request) = true ->
  field_id fields <> JNull ->
  field_method fields = JStr "tools/call" ->
  field_params fields = JObj pfields ->
  param_name pfields = JStr "forecast_time_series" ->
  decode_arguments W (param_arguments pfields) = Some arguments ->
  (forall afields, arguments <> JObj afields) ->
  forecast_time_series W arguments = Raise (AttributeError arguments "get")
  /\ mcp_endpoint W request
     = Ok ({| body :=
                Some (JObj [ ("jsonrpc", JStr "2.0");
                             ("result",
                               JObj [ ("isError", JBool true);
                                      ("content",
                                        JArr [JObj [ ("type", JStr "text");
                                                     ("text",
                                                       JStr ("Internal tool error: '"
                                                               ++ type_name arguments
                                                               ++ "' object has no attribute 'get'")) ]]) ]);
                             ("id", field_id fields) ]);
              status := 200 |}).
Proof.
  intros Hj Ha Hid Hm Hp Hn Hd Hno.
  assert (Hr : forecast_time_series W arguments
               = Raise (AttributeError arguments "get")).
  { destruct arguments as [| | | | | |afields]; try reflexivity.
    exfalso. exact (Hno afields eq_refl). }
  split; [exact Hr|].
  rewrite (endpoint_forecast_call W request fields pfields arguments
             Hj Ha Hid Hm Hp Hn Hd), Hr.
  reflexivity.
Qed.

Lemma forecast_arguments_not_object_witness :
  forecast_time_series Demo.world (JArr [JInt 1])
  = Raise (AttributeError (JArr [JInt 1]) "get")
  /\ mcp_endpoint Demo.world Examples.forecast_list_arguments_call
     = Ok ({| body :=
                Some (JObj [ ("jsonrpc", JStr "2.0");
                             ("result",
                               JObj [ ("isError", JBool true);
                                      ("content",
                                        JArr [JObj [ ("type", JStr "text");
                                                     ("text",
                                                       JStr "Internal tool error: 'list' object has no attribute 'get'") ]]) ]);
                             ("id", JInt 11) ]);
              status := 200 |}).
Proof.
  apply (forecast_arguments_not_object Demo.world
           Examples.forecast_list_arguments_call
           (Examples.call_fields 11 (JObj Examples.forecast_list_arguments))
           Examples.forecast_list_arguments (JArr [JInt 1]));
    try reflexivity; discriminate.
Defined.

(** X15: the horizon is converted with [int] before the frame is built and
    before the dates are read: when [int] refuses [periods] the adapter
    raises that exception whatever [ds] and [y] are, and the call is
    answered with "Internal tool error: <detail>". *)
Theorem bad_periods_raises_first (W : World) (request : Request)
  (fields pfields afields : list (string * json)) (e : exn) :
  request_get_json request = Ok (JObj fields) ->
  authorized W (request_authorization request) = true ->
  field_id fields <> JNull ->
  field_method fields = JStr "tools/call" ->
  field_params fields = JObj pfields ->
  param_name pfields = JStr "forecast_time_series" ->
  decode_arguments W (param_arguments pfields) = Some (JObj afields) ->
  py_int W (arg_periods afields) = Raise e ->
  forecast_time_series W (JObj afields) = Raise e
  /\ mcp_endpoint W request
     = Ok ({| body :=
                Some (JObj [ ("jsonrpc", JStr "2.0");
                             ("result",
                               JObj [ ("isError", JBool true);
                                      ("content",
                                        JArr [JObj [ ("type", JStr "text");
                                                     ("text",
                                                       JStr ("Internal tool error: "
                                                               ++ exn_str e)) ]]) ]);
                             ("id", field_id fields) ]);
              status := 200 |}).
Proof.
  intros Hj Ha Hid Hm Hp Hn Hd Hf.
  assert (Hr : forecast_time_series W (JObj afields) = Raise e).
  { unfold forecast_time_series. cbn [get bind].
    fold (arg_periods afields). rewrite Hf. reflexivity. }
  split; [exact Hr|].
  rewrite (endpoint_forecast_call W request fields pfields (JObj afields)
             Hj Ha Hid Hm Hp Hn Hd), Hr.
  reflexivity.
Qed.

Lemma bad_periods_witness :
  forecast_time_series Demo.world (JObj Examples.null_periods_arguments)
  = Raise (TypeError
             "int() argument must be a string, a bytes-like object or a real number, not 'NoneType'")
  /\ mcp_endpoint Demo.world Examples.null_periods_call
     = Ok ({| body :=
                Some (JObj [ ("jsonrpc", JStr "2.0");
                             ("result",
                               JObj [ ("isError", JBool true);
                                      ("content",
                                        JArr [JObj [ ("type", JStr "text");
                                                     ("text",
                                                       JStr "Internal tool error: int() argument must be a string, a bytes-like object or a real number, not 'NoneType'") ]]) ]);
                             ("id", JInt 12) ]);
              status := 200 |}).
Proof.
  apply (bad_periods_raises_first Demo.world Examples.null_periods_call
           (Examples.call_fields 12 (JObj Examples.null_periods_params))
           Examples.null_periods_params Examples.null_periods_arguments
           (TypeError
              "int() argument must be a string, a bytes-like object or a real number, not 'NoneType'"));
    try reflexivity; discriminate.
Defined.

(** X16: the adapter does not compare the lengths of [ds] and [y] itself:
    two lists of different lengths make the frame constructor raise, before
    any date is read, and the call is answered with "Internal tool error:
    All arrays must be of the same length". *)
Theorem ragged_history_is_internal_tool_error (W : World) (request : Request)
  (fields pfields afields : list (string * json)) (dsl yl : list json)
  (f : Z) :
  request_get_json request = Ok (JObj fields) ->
  authorized W (request_authorization request) = true ->
  field_id fields <> JNull ->
  field_method fields = JStr "tools/call" ->
  field_params fields = JObj pfields ->
  param_name pfields = JStr "forecast_time_series" ->
  decode_arguments W (param_arguments pfields) = Some (JObj afields) ->
  dict_get afields "ds" = Some (JArr dsl) ->
  dict_get afields "y" = Some (JArr yl) ->
  length dsl <> length yl ->
  py_int W (arg_periods afields) = Ok f ->
  forecast_time_series W (JObj afields)
  = Raise (ValueError "All arrays must be of the same length")
  /\ mcp_endpoint W request
     = Ok ({| body :=
                Some (JObj [ ("jsonrpc", JStr "2.0");
                             ("result",
                               JObj [ ("isError", JBool true);
                                      ("content",
                                        JArr [JObj [ ("type", JStr "text");
                                                     ("text",
                                                       JStr "Internal tool error: All arrays must be of the same length") ]]) ]);
                             ("id", field_id fields) ]);
              status := 200 |}).
Proof.
  intros Hj Ha Hid Hm Hp Hn Hd Hds Hy Hlen Hf.
  assert (Hr : forecast_time_series W (JObj afields)
               = Raise (ValueError "All arrays must be of the same length")).
  { unfold forecast_time_series. cbn [get bind]. rewrite Hds, Hy.
    fold (arg_periods afields). rewrite Hf. cbn [bind].
    unfold pd_DataFrame.
    apply Nat.eqb_neq in Hlen. rewrite Hlen. reflexivity. }
  split; [exact Hr|].
  rewrite (endpoint_forecast_call W request fields pfields (JObj afields)
             Hj Ha Hid Hm Hp Hn Hd), Hr.
  reflexivity.
Qed.

Lemma ragged_history_witness :
  forecast_time_series Demo.world (JObj Examples.ragged_arguments)
  = Raise (ValueError "All arrays must be of the same length")
  /\ mcp_endpoint Demo.world Examples.ragged_call
     = Ok ({| body :=
                Some (JObj [ ("jsonrpc", JStr "2.0");
                             ("result",
                               JObj [ ("isError", JBool true);
                                      ("content",
                                        JArr [JObj [ ("type", JStr "text");
                                                     ("text",
                                                       JStr "Internal tool error: All arrays must be of the same length") ]]) ]);
                             ("id", JInt 14) ]);
              status := 200 |}).
Proof.
  apply (ragged_history_is_internal_tool_error Demo.world
           Examples.ragged_call
           (Examples.call_fields 14 (JObj Examples.ragged_params))
           Examples.ragged_params Examples.ragged_arguments
           [JStr "2021-01-01"; JStr "2021-01-02"] [JInt 1] 10);
    try reflexivity; discriminate.
Defined.
